(** * Christoffel Menu: a shallow embedding of [src/App.tsx]

    The application keeps two pieces of state, a navigation stack
    ([useSimpleStack]) and the list of menu items ([menuItems] in [App]), and
    derives from them the averages shown on the home screen, the filtered
    lists, and the screen to render.  This file embeds those functions and
    proves the properties the specification states about them.

    JavaScript values are modelled as follows.
    - A [number] is an IEEE 754 binary64 value: Rocq's primitive [float],
      with [+] and [/] the kernel's correctly rounded operations.
    - A [string] is a Rocq [string]; its characters are read as the code
      units U+0000 to U+00FF.  Code units above U+00FF are outside the model.
    - An array is a [list]; an optional property is an [option]. *)

From Stdlib Require Import ZArith NArith List String Ascii Bool Lia.
From Stdlib Require Import DecimalString DecimalN.
From Stdlib Require Import Floats.PrimFloat Floats.SpecFloat Floats.FloatOps.
From Stdlib Require Floats.FloatAxioms.
From Stdlib Require Import QArith_base Qround Qabs.
Import ListNotations.

Local Open Scope list_scope.
Local Open Scope string_scope.

(** ** The JavaScript built-ins the program calls *)

Module JS.

Local Open Scope Z_scope.

Definition number := float.

(** *** Strings *)

(** [WhiteSpace] and [LineTerminator] code units below U+0100: TAB, LF, VT,
    FF, CR, SP and NBSP. *)
Definition isWhiteSpace (c : ascii) : bool :=
  let n := nat_of_ascii c in
  ((9 <=? n) && (n <=? 13) || (n =? 32) || (n =? 160))%nat.

Fixpoint trimStart (s : string) : string :=
  match s with
  | String c s' => if isWhiteSpace c then trimStart s' else s
  | EmptyString => EmptyString
  end.

(** [trimEnd] drops the white space that is followed by white space only. *)
Fixpoint trimEnd (s : string) : string :=
  match s with
  | EmptyString => EmptyString
  | String c s' =>
      match trimEnd s' with
      | EmptyString => if isWhiteSpace c then EmptyString else String c EmptyString
      | t => String c t
      end
  end.

(** [String.prototype.trim] *)
Definition trim (s : string) : string := trimEnd (trimStart s).

(** [ToBoolean] of a string, as in [!name.trim()]. *)
Definition truthy (s : string) : bool :=
  match s with EmptyString => false | _ => true end.

(** The decimal digits of a natural number, ["0"] for zero. *)
Definition digitsOfN (n : N) : string := NilZero.string_of_uint (N.to_uint n).

Definition digitsOfZ (z : Z) : string := digitsOfN (Z.to_N z).

Fixpoint zeros (k : nat) : string :=
  match k with O => EmptyString | S k' => String "0" (zeros k') end.

(** *** Numbers *)

Definition prec : Z := 53.
Definition emax : Z := 1024.

(** The binary64 value nearest to the rational [num / den] ([0 < den]),
    ties to even, with the sign [neg]: the specification's conversion of a
    mathematical value to a Number. *)
Definition ofRatio (neg : bool) (num den : Z) : number :=
  match num, den with
  | Zpos n, Zpos d => SF2Prim (SFdiv prec emax (S754_finite neg n 0) (S754_finite false d 0))
  | _, _ => SF2Prim (S754_zero neg)
  end.

(** A list length or other non-negative integer as a Number. *)
Definition ofNat (n : nat) : number := ofRatio false (Z.of_nat n) 1.

Definition isNaN (x : number) : bool := is_nan x.

(** A finite non-zero Number [(-1)^s * m * 2^e] has the absolute value
    [num / den] with these two integers. *)
Definition numOf (m : positive) (e : Z) : Z := Zpos m * 2 ^ Z.max e 0.
Definition denOf (e : Z) : Z := 2 ^ Z.max (- e) 0.

(** *** [parseFloat]

    The argument is trimmed at the start, its longest prefix that is a
    [StrDecimalLiteral] is read, and the value of that literal is rounded
    to the nearest Number; [NaN] when there is no such prefix. *)

Definition isDigit (c : ascii) : bool :=
  let n := nat_of_ascii c in ((48 <=? n) && (n <=? 57))%nat.

Definition digitVal (c : ascii) : Z := Z.of_nat (nat_of_ascii c) - 48.

(** The longest run of [DecimalDigits] at the head of [s]: the value read
    (continuing from [acc]), how many digits were read, and the rest. *)
Fixpoint decimalDigits (acc : Z) (cnt : nat) (s : string) : Z * nat * string :=
  match s with
  | String c s' =>
      if isDigit c then decimalDigits (10 * acc + digitVal c) (S cnt) s'
      else (acc, cnt, s)
  | EmptyString => (acc, cnt, s)
  end.

(** [ExponentPart], optional: [e] or [E], an optional sign, and at least
    one digit.  The value is 0 when the part is absent or incomplete. *)
Definition exponentPart (s : string) : Z :=
  match s with
  | String c s' =>
      if (c =? "e")%char || (c =? "E")%char then
        match s' with
        | String "+" s'' => let '(v, _, _) := decimalDigits 0 0 s'' in v
        | String "-" s'' => let '(v, _, _) := decimalDigits 0 0 s'' in - v
        | _ => let '(v, _, _) := decimalDigits 0 0 s' in v
        end
      else 0
  | EmptyString => 0
  end.

(** A [StrUnsignedDecimalLiteral]: [Infinity], or the decimal
    [mant * 10 ^ exp10]. *)
Variant literal := LitInfinity | LitDecimal (mant exp10 : Z).

Definition unsignedDecimalLiteral (s : string) : option literal :=
  if prefix "Infinity" s then Some LitInfinity
  else
    let '(ip, ni, r1) := decimalDigits 0 0 s in
    match r1 with
    | String "." r2 =>
        let '(m, nf, r3) := decimalDigits ip 0 r2 in
        if ((ni =? 0) && (nf =? 0))%nat then None
        else Some (LitDecimal m (exponentPart r3 - Z.of_nat nf))
    | _ => if (ni =? 0)%nat then None else Some (LitDecimal ip (exponentPart r1))
    end.

Definition strDecimalLiteral (s : string) : option (bool * literal) :=
  match s with
  | String "+" s' => option_map (pair false) (unsignedDecimalLiteral s')
  | String "-" s' => option_map (pair true) (unsignedDecimalLiteral s')
  | _ => option_map (pair false) (unsignedDecimalLiteral s)
  end.

Definition ofDecimal (neg : bool) (m e10 : Z) : number :=
  if 0 <=? e10 then ofRatio neg (m * 10 ^ e10) 1 else ofRatio neg m (10 ^ (- e10)).

Definition parseFloat (s : string) : number :=
  match strDecimalLiteral (trimStart s) with
  | None => nan
  | Some (neg, LitInfinity) => if neg then neg_infinity else infinity
  | Some (neg, LitDecimal m e10) => ofDecimal neg m e10
  end.

(** *** [Number.prototype.toString] for an integer of at least [10 ^ 21]

    The digits [s] ([k] of them, [k] least) and the exponent [n] with
    [s * 10 ^ (n - k)] reading back as [x]; among several [s] the one
    nearest to [x], the even one on a tie. *)

Definition candidates (x : number) (X : Z) (d0 k : nat) : list (Z * Z) :=
  filter
    (fun c : Z * Z =>
       let (s, n) := c in
       (10 ^ (Z.of_nat k - 1) <=? s) && (s <? 10 ^ Z.of_nat k) &&
       PrimFloat.eqb (ofRatio false (s * 10 ^ (n - Z.of_nat k)) 1) x)
    (flat_map
       (fun n : Z => let p := 10 ^ (n - Z.of_nat k) in [(X / p, n); (X / p + 1, n)])
       [Z.of_nat d0; Z.of_nat d0 + 1]).

Definition nearer (X : Z) (k : nat) (c1 c2 : Z * Z) : Z * Z :=
  let dist (c : Z * Z) := Z.abs (fst c * 10 ^ (snd c - Z.of_nat k) - X) in
  if dist c2 <? dist c1 then c2
  else if (dist c2 =? dist c1) && Z.even (fst c2) then c2
  else c1.

Fixpoint shortest (fuel : nat) (x : number) (X : Z) (d0 k : nat) : Z * nat * Z :=
  match fuel with
  | O => (X, d0, Z.of_nat d0)
  | S fuel' =>
      match candidates x X d0 k with
      | [] => shortest fuel' x X d0 (S k)
      | c :: cs => let (s, n) := fold_left (nearer X k) cs c in (s, k, n)
      end
  end.

Definition toStringLarge (x : number) (X : Z) : string :=
  let d0 := length (digitsOfZ X) in
  let '(s, k, n) := shortest d0 x X d0 1 in
  let ds := digitsOfZ s in
  (if (k =? 1)%nat then ds else substring 0 1 ds ++ "." ++ substring 1 (k - 1) ds)
  ++ "e+" ++ digitsOfZ (n - 1).

(** *** [Number.prototype.toFixed] *)

(** The integer [n] as a decimal with [f] fraction digits. *)
Definition fixedDigits (f : nat) (n : Z) : string :=
  let m := digitsOfZ n in
  if (f =? 0)%nat then m
  else
    let m' := if (length m <=? f)%nat then zeros (f + 1 - length m) ++ m else m in
    let k := length m' in
    substring 0 (k - f) m' ++ "." ++ substring (k - f) f m'.

(** [x.toFixed(f)]: for [|x| < 10 ^ 21] the integer [n] with [n / 10 ^ f]
    nearest to [|x|], the larger one on a tie, written with [f] fraction
    digits; the sign is kept whenever [x < 0]. *)
Definition toFixed (f : nat) (x : number) : string :=
  match Prim2SF x with
  | S754_nan => "NaN"
  | S754_infinity s => if s then "-Infinity" else "Infinity"
  | S754_zero _ => fixedDigits f 0
  | S754_finite s m e =>
      let num := numOf m e in
      let den := denOf e in
      (if s then "-" else "") ++
      (if 10 ^ 21 * den <=? num then toStringLarge (abs x) (num / den)
       else fixedDigits f ((2 * num * 10 ^ Z.of_nat f + den) / (2 * den)))
  end.

End JS.

(** ** Data *)

(** [interface MenuItem] *)
Record MenuItem := {
  id : string;
  name : string;
  course : string;
  addOn : string;
  price : JS.number
}.

Definition COURSES : list string := ["Starter"; "Main"; "Dessert"; "Beverage"]%list.
Definition ADDONS : list string := ["Extra Sauce"; "Salad"; "Fries"; "None"]%list.

(** [type ScreenName] *)
Variant ScreenName := Home | Chef | GuestFilter | SelectedCourse | Payment | Unknown.

(** The route parameters [{ item?: MenuItem }]. *)
Record Params := { item : option MenuItem }.

(** [interface Route]; its [name] field is [route_name] here. *)
Record Route := { route_name : ScreenName; params : Params }.

Definition noParams : Params := {| item := None |}.

(** ** HomeScreen: averages and the filtered list *)

(** An entry [{ course, average, count }] of [computeAverages]; its [course]
    field is [avg_course] here. *)
Record CourseAverage := {
  avg_course : string;
  average : JS.number;
  count : nat
}.

(** [list.reduce((s, i) => s + i.price, 0)] *)
Definition sumPrices (list : list MenuItem) : JS.number :=
  fold_left (fun (s : JS.number) (i : MenuItem) => (s + price i)%float) list 0%float.

(** The body of the [COURSES.forEach] callback: the entry pushed for [c]. *)
Definition courseEntry (items : list MenuItem) (c : string) : CourseAverage :=
  let list := filter (fun it => (course it =? c)%string) items in
  let count := List.length list in
  let average :=
    if (0 <? count)%nat then (sumPrices list / JS.ofNat count)%float else 0%float in
  {| avg_course := c; average := JS.parseFloat (JS.toFixed 2 average); count := count |}.

Definition computeAverages (items : list MenuItem) : list CourseAverage :=
  fold_left (fun result c => (result ++ [courseEntry items c])%list) COURSES []%list.

Definition overallAverage (items : list MenuItem) : JS.number :=
  if (List.length items =? 0)%nat then 0%float
  else
    let sum := sumPrices items in
    JS.parseFloat (JS.toFixed 2 (sum / JS.ofNat (List.length items))%float).

(** [menuItems || []] for the optional property [menuItems]. *)
Definition orEmpty (menuItems : option (list MenuItem)) : list MenuItem :=
  match menuItems with Some l => l | None => []%list end.

(** [displayed] in [HomeScreen]. *)
Definition displayed (filter_ : string) (menuItems : option (list MenuItem)) : list MenuItem :=
  if (filter_ =? "All")%string then orEmpty menuItems
  else filter (fun it => (course it =? filter_)%string) (orEmpty menuItems).

(** [filtered] in [GuestFilterScreen]: the same expression. *)
Definition filtered (filter_ : string) (menuItems : option (list MenuItem)) : list MenuItem :=
  if (filter_ =? "All")%string then orEmpty menuItems
  else filter (fun it => (course it =? filter_)%string) (orEmpty menuItems).

(** ** useSimpleStack: the navigation stack *)

(** The three updaters passed to [setStack]. *)
Definition navigate (name_ : ScreenName) (params_ : Params) (prev : list Route) : list Route :=
  (prev ++ [{| route_name := name_; params := params_ |}])%list.

(** [prev.slice(0, -1)] is [removelast prev]. *)
Definition goBack (prev : list Route) : list Route :=
  if (1 <? List.length prev)%nat then removelast prev else prev.

Definition popToTop (prev : list Route) : list Route :=
  match prev with
  | (r :: _)%list => [r]%list
  | []%list => prev
  end.

(** [stack[stack.length - 1]], [undefined] on an empty array. *)
Definition current (stack : list Route) : option Route :=
  nth_error stack (List.length stack - 1).

Definition initialRoute : Route := {| route_name := Home; params := noParams |}.

(** [useState<Route[]>([initialRoute])] *)
Definition initialStack : list Route := [initialRoute]%list.

(** One call on the navigation object. *)
Variant NavOp :=
  | Navigate (name_ : ScreenName) (params_ : Params)
  | GoBack
  | PopToTop.

Definition step (stack : list Route) (op : NavOp) : list Route :=
  match op with
  | Navigate n p => navigate n p stack
  | GoBack => goBack stack
  | PopToTop => popToTop stack
  end.

Definition run (ops : list NavOp) : list Route := fold_left step ops initialStack.

(** ** App: the menu store *)

Definition seedItems : list MenuItem :=
  [ {| id := "1"; name := "Tomato Soup"; course := "Starter"; addOn := ""; price := 45%float |};
    {| id := "2"; name := "Grilled Steak"; course := "Main"; addOn := "Fries"; price := 220%float |} ]%list.

Definition addItem (item_ : MenuItem) (prev : list MenuItem) : list MenuItem :=
  (item_ :: prev)%list.

Definition removeItem (id_ : string) (prev : list MenuItem) : list MenuItem :=
  filter (fun i => negb (id i =? id_)%string) prev.

(** ** Alerts

    [Alert.alert(title, message, buttons)] shows a dialog; a button's
    [onPress] runs when the user presses it.  The handlers of this program
    are the three below. *)

Variant Handler :=
  | NoHandler
  | CallPopToTop
  | CallRemoveItem (id_ : string).

Record AlertButton := { text : string; onPress : Handler }.

Record Alert := { title : string; message : string; buttons : list AlertButton }.

(** ** ChefScreen *)

(** The four [useState] cells of the form; [name], [course], [addOn] and
    [price] in the source. *)
Record ChefForm := {
  form_name : string;
  form_course : string;
  form_addOn : string;
  form_price : string
}.

(** The defaults: [''], [COURSES[0]], [ADDONS[0]], ['']. *)
Definition defaultForm : ChefForm :=
  {| form_name := ""; form_course := hd "" COURSES; form_addOn := hd "" ADDONS; form_price := "" |}.

(** What the user sees: the navigation stack, the menu and the chef form. *)
Record AppState := {
  stack : list Route;
  menuItems : list MenuItem;
  form : ChefForm
}.

Definition initialState : AppState :=
  {| stack := initialStack; menuItems := seedItems; form := defaultForm |}.

(** [onAdd], with [now] the value of [Date.now()], an integer below
    [10 ^ 21] whose [toString()] is its decimal digits.  The result is the
    next state and the alert shown. *)
Definition onAdd (now : N) (st : AppState) : AppState * Alert :=
  let f := form st in
  if negb (JS.truthy (JS.trim (form_name f))) || negb (JS.truthy (JS.trim (form_price f))) then
    (st, {| title := "Validation"; message := "Please enter a dish name and price.";
            buttons := []%list |})
  else
    let parsedPrice := JS.parseFloat (form_price f) in
    if JS.isNaN parsedPrice || (parsedPrice <? 0)%float then
      (st, {| title := "Validation"; message := "Please enter a valid price.";
              buttons := []%list |})
    else
      let newItem :=
        {| id := JS.digitsOfN now;
           name := JS.trim (form_name f);
           course := form_course f;
           addOn := if (form_addOn f =? "None")%string then "" else form_addOn f;
           price := JS.parseFloat (JS.toFixed 2 parsedPrice) |} in
      ({| stack := stack st;
          menuItems := addItem newItem (menuItems st);
          form := defaultForm |},
       {| title := "Success"; message := "Menu item added.";
          buttons := [ {| text := "OK"; onPress := CallPopToTop |} ]%list |}).

Definition quote : string := String (ascii_of_nat 34) EmptyString.

Definition confirmRemove (id_ itemName : string) : Alert :=
  {| title := "Remove item";
     message := "Remove " ++ quote ++ itemName ++ quote ++ " from the menu?";
     buttons := [ {| text := "Cancel"; onPress := NoHandler |};
                  {| text := "Remove"; onPress := CallRemoveItem id_ |} ]%list |}.

(** Pressing a button of an alert runs its handler. *)
Definition press (h : Handler) (st : AppState) : AppState :=
  match h with
  | NoHandler => st
  | CallPopToTop =>
      {| stack := popToTop (stack st); menuItems := menuItems st; form := form st |}
  | CallRemoveItem id_ =>
      {| stack := stack st; menuItems := removeItem id_ (menuItems st); form := form st |}
  end.

(** ** renderScreen: the screen dispatcher *)

(** What a screen function returns: one of the five screens with the data it
    shows, or a view holding a single line of text. *)
Variant Screen :=
  | HomeView (menuItems_ : list MenuItem)
  | ChefView (menuItems_ : list MenuItem)
  | GuestFilterView (menuItems_ : list MenuItem)
  | SelectedCourseView (item_ : MenuItem)
  | PaymentView (item_ : MenuItem)
  | TextOnly (text_ : string).

Definition SelectedCourseScreen (route_params : Params) : Screen :=
  match item route_params with
  | None => TextOnly "No item selected."
  | Some it => SelectedCourseView it
  end.

Definition PaymentScreen (route_params : Params) : Screen :=
  match item route_params with
  | None => TextOnly "Error: Missing item for payment."
  | Some it => PaymentView it
  end.

Definition screenNameText (n : ScreenName) : string :=
  match n with
  | Home => "Home"
  | Chef => "Chef"
  | GuestFilter => "GuestFilter"
  | SelectedCourse => "SelectedCourse"
  | Payment => "Payment"
  | Unknown => "Unknown"
  end.

Definition renderScreen (current_ : Route) (menuItems_ : list MenuItem) : Screen :=
  match route_name current_ with
  | Home => HomeView menuItems_
  | Chef => ChefView menuItems_
  | GuestFilter => GuestFilterView menuItems_
  | SelectedCourse => SelectedCourseScreen (params current_)
  | Payment => PaymentScreen (params current_)
  | n => TextOnly ("Unknown screen: " ++ screenNameText n)
  end.

(** [App]: [None] stands for the [TypeError] of reading [current.params]
    when the stack is empty and [current] is [undefined]. *)
Definition App (st : AppState) : option Screen :=
  match current (stack st) with
  | Some c => Some (renderScreen c (menuItems st))
  | None => None
  end.

(** ** The specification's vocabulary *)

(** "Rounded to 2 decimals": the Number read back from the two-digit
    rendering. *)
Definition round2 (x : JS.number) : JS.number := JS.parseFloat (JS.toFixed 2 x).



(** The sum of the counts of a list of entries. *)
Definition sumCounts (entries : list CourseAverage) : nat :=
  fold_right Nat.add 0%nat (map count entries).

(** Whether a course is one of the four fixed courses. *)
Definition isFixedCourse (c : string) : bool := existsb (String.eqb c) COURSES.

(** [Kept P items out]: [out] is exactly the items that satisfy [P], in the
    order of [items]. *)
Inductive Kept (P : MenuItem -> Prop) : list MenuItem -> list MenuItem -> Prop :=
  | Kept_nil : Kept P []%list []%list
  | Kept_keep it items out : P it -> Kept P items out -> Kept P (it :: items)%list (it :: out)%list
  | Kept_drop it items out : ~ P it -> Kept P items out -> Kept P (it :: items)%list out.

(** A Number that is finite and not below zero: a non-negative finite
    amount. *)
Definition finiteNonNegative (x : JS.number) : bool :=
  is_finite x && (0 <=? x)%float.

(** A stack that the navigation object can produce. *)
Definition reachable (s : list Route) : Prop := exists ops, s = run ops.

(** The stacks that start with the root frame. *)
Definition rooted (s : list Route) : Prop := exists rest, s = (initialRoute :: rest)%list.

(** The guard of [onAdd]: the submission is turned down exactly when the
    trimmed name or the trimmed price is empty, or [parseFloat] of the price
    is [NaN] or below zero. *)
Definition turnedDown (f : ChefForm) : bool :=
  negb (JS.truthy (JS.trim (form_name f))) || negb (JS.truthy (JS.trim (form_price f)))
  || JS.isNaN (JS.parseFloat (form_price f)) || (JS.parseFloat (form_price f) <? 0)%float.

(** *** Sample data *)

(** An item whose course is none of the four fixed courses. *)
Definition brothItem : MenuItem :=
  {| id := "3"; name := "Broth"; course := "Soup"; addOn := ""; price := 30%float |}.

(** A second item with the id of the first seed item. *)
Definition soupAgain : MenuItem :=
  {| id := "1"; name := "Pea Soup"; course := "Starter"; addOn := "Salad"; price := 50%float |}.



(** The chef screen with the form filled in. *)
Definition chefState (name_ course_ addOn_ price_ : string) : AppState :=
  {| stack := navigate Chef noParams initialStack;
     menuItems := seedItems;
     form := {| form_name := name_; form_course := course_;
                form_addOn := addOn_; form_price := price_ |} |}.

(** *** Decimal digits *)

(** The value of a string of decimal digits read from the left, continuing
    from [acc]. *)
Fixpoint digitsVal (acc : Z) (s : string) : Z :=
  match s with
  | String c s' => digitsVal (10 * acc + JS.digitVal c) s'
  | EmptyString => acc
  end.

(** Whether every character of a string is a decimal digit. *)
Fixpoint allDigits (s : string) : bool :=
  match s with
  | String c s' => JS.isDigit c && allDigits s'
  | EmptyString => true
  end.

(** Whether reading decimal digits stops at the head of a string. *)
Definition stops (s : string) : bool :=
  match s with
  | String c _ => negb (JS.isDigit c)
  | EmptyString => true
  end.

(** [100 |x|] rounded to an integer, halves upwards, for the finite Number
    [x] of mantissa [m] and exponent [e]. *)
Definition hundredths (m : positive) (e : Z) : Z :=
  ((2 * JS.numOf m e * 100 + JS.denOf e) / (2 * JS.denOf e))%Z.

(** *** The mean, exactly and in binary64 arithmetic *)









(** ** The rest of the screens *)

(** *** What the cards and the detail screen show *)

(** [item.addOn || 'No add-ons'] in [MenuCard] and in the rows of
    [ChefScreen]. *)
Definition cardAddOn (it : MenuItem) : string :=
  if JS.truthy (addOn it) then addOn it else "No add-ons".

(** [item.addOn || 'None'] in [SelectedCourseScreen]. *)
Definition detailAddOn (it : MenuItem) : string :=
  if JS.truthy (addOn it) then addOn it else "None".

(** The text [R {item.price.toFixed(2)}] of the cards and of both item
    screens. *)
Definition priceText (it : MenuItem) : string := "R " ++ JS.toFixed 2 (price it).

(** *** SimpleSelect and the filter tabs *)

(** Pressing row [i] of the option list calls [onValueChange] with that
    option; there is no row past the end of the list. *)
Definition choose (options : list string) (i : nat) (value : string) : string :=
  match nth_error options i with
  | Some o => o
  | None => value
  end.

(** [options = ['All', ...COURSES]] in [HomeScreen] and [GuestFilterScreen]. *)
Definition tabs : list string := ("All" :: COURSES)%list.

(** *** PaymentScreen *)

(** The two [useState] cells [bankName] and [accountNumber]. *)
Record PaymentForm := { bankName : string; accountNumber : string }.

Definition emptyPayment : PaymentForm := {| bankName := ""; accountNumber := "" |}.

(** [onConfirmPayment] for the item of the route: the alert shown.  No state
    is written. *)
Definition onConfirmPayment (item_ : MenuItem) (p : PaymentForm) : Alert :=
  if negb (JS.truthy (JS.trim (bankName p))) || negb (JS.truthy (JS.trim (accountNumber p))) then
    {| title := "Validation"; message := "Please fill payment details."; buttons := []%list |}
  else
    {| title := "Payment confirmed";
       message := "Order for " ++ name item_ ++ " placed. Total: R " ++ JS.toFixed 2 (price item_);
       buttons := [ {| text := "OK"; onPress := CallPopToTop |} ]%list |}.

(** ** The application as a whole

    The state of [App] together with the cells of the mounted screen and the
    alert on display.  The cells of a screen exist while that screen is the
    one rendered: when [renderScreen] returns another component they are
    created anew with their initial values.  [HomeScreen] and
    [GuestFilterScreen] each hold a [filter] cell; one of them at most is
    mounted, so one field stands for both. *)
Record World := {
  app : AppState;
  courseFilter : string;
  payment : PaymentForm;
  alert : option Alert
}.

Definition initialWorld : World :=
  {| app := initialState; courseFilter := "All"; payment := emptyPayment; alert := None |}.

Definition sameScreen (a b : ScreenName) : bool :=
  match a, b with
  | Home, Home | Chef, Chef | GuestFilter, GuestFilter
  | SelectedCourse, SelectedCourse | Payment, Payment | Unknown, Unknown => true
  | _, _ => false
  end.

(** Whether two stacks have the same component on top. *)
Definition sameTop (s s' : list Route) : bool :=
  match current s, current s' with
  | Some c, Some c' => sameScreen (route_name c) (route_name c')
  | None, None => true
  | _, _ => false
  end.

(** A write to the state of [App]; the screen cells start afresh when it
    puts another component on top. *)
Definition update (f : AppState -> AppState) (w : World) : World :=
  let a' := f (app w) in
  if sameTop (stack (app w)) (stack a') then
    {| app := a'; courseFilter := courseFilter w; payment := payment w; alert := alert w |}
  else
    {| app := {| stack := stack a'; menuItems := menuItems a'; form := defaultForm |};
       courseFilter := "All"; payment := emptyPayment; alert := alert w |}.

(** [setStack] with an updater. *)
Definition setStack (upd : list Route -> list Route) (a : AppState) : AppState :=
  {| stack := upd (stack a); menuItems := menuItems a; form := form a |}.

(** A setter of one of the four cells of the chef form. *)
Definition setForm (f : ChefForm -> ChefForm) (w : World) : World :=
  {| app := {| stack := stack (app w); menuItems := menuItems (app w); form := f (form (app w)) |};
     courseFilter := courseFilter w; payment := payment w; alert := alert w |}.

Definition setFilter (o : string) (w : World) : World :=
  {| app := app w; courseFilter := o; payment := payment w; alert := alert w |}.

Definition setPayment (f : PaymentForm -> PaymentForm) (w : World) : World :=
  {| app := app w; courseFilter := courseFilter w; payment := f (payment w); alert := alert w |}.

Definition showAlert (a : Alert) (w : World) : World :=
  {| app := app w; courseFilter := courseFilter w; payment := payment w; alert := Some a |}.

Definition dismiss (w : World) : World :=
  {| app := app w; courseFilter := courseFilter w; payment := payment w; alert := None |}.

(** What the user can do: the touchables and text inputs of the five
    screens, and the buttons of an alert. *)
Variant Event :=
  | PressTab (i : nat)
  | PressCard (i : nat)
  | PressChef
  | PressGuest
  | TypeName (s : string)
  | TypePrice (s : string)
  | ChooseCourse (i : nat)
  | ChooseAddOn (i : nat)
  | PressAdd (now : N)
  | PressClear
  | PressRemove (i : nat)
  | PressBackToHome
  | PressConfirmMeal
  | PressCancel
  | TypeBank (s : string)
  | TypeAccount (s : string)
  | PressConfirmPayment
  | PressAlert (i : nat).

(** Pressing button [i] of the alert closes it and runs the handler of the
    button.  An alert given no buttons has the single button OK. *)
Definition pressAlert (a : Alert) (i : nat) (w : World) : World :=
  match buttons a with
  | []%list => if (i =? 0)%nat then dismiss w else w
  | bs =>
      match nth_error bs i with
      | Some b => update (press (onPress b)) (dismiss w)
      | None => w
      end
  end.

(** Selecting the [i]-th card of a list navigates to SelectedCourse with
    that item. *)
Definition pressCard (shown : list MenuItem) (i : nat) (w : World) : World :=
  match nth_error shown i with
  | Some it => update (setStack (navigate SelectedCourse {| item := Some it |})) w
  | None => w
  end.

Definition onHome (e : Event) (w : World) : World :=
  match e with
  | PressTab i => setFilter (choose tabs i (courseFilter w)) w
  | PressCard i => pressCard (displayed (courseFilter w) (Some (menuItems (app w)))) i w
  | PressChef => update (setStack (navigate Chef noParams)) w
  | PressGuest => update (setStack (navigate GuestFilter noParams)) w
  | _ => w
  end.

Definition onChef (e : Event) (w : World) : World :=
  match e with
  | TypeName s =>
      setForm (fun f => {| form_name := s; form_course := form_course f;
                           form_addOn := form_addOn f; form_price := form_price f |}) w
  | TypePrice s =>
      setForm (fun f => {| form_name := form_name f; form_course := form_course f;
                           form_addOn := form_addOn f; form_price := s |}) w
  | ChooseCourse i =>
      setForm (fun f => {| form_name := form_name f;
                           form_course := choose COURSES i (form_course f);
                           form_addOn := form_addOn f; form_price := form_price f |}) w
  | ChooseAddOn i =>
      setForm (fun f => {| form_name := form_name f; form_course := form_course f;
                           form_addOn := choose ADDONS i (form_addOn f);
                           form_price := form_price f |}) w
  | PressAdd now =>
      let (a', al) := onAdd now (app w) in
      showAlert al
        {| app := a'; courseFilter := courseFilter w; payment := payment w; alert := alert w |}
  | PressClear => setForm (fun _ => defaultForm) w
  | PressCard i => pressCard (menuItems (app w)) i w
  | PressRemove i =>
      match nth_error (menuItems (app w)) i with
      | Some it => showAlert (confirmRemove (id it) (name it)) w
      | None => w
      end
  | PressBackToHome => update (setStack popToTop) w
  | _ => w
  end.

Definition onGuestFilter (e : Event) (w : World) : World :=
  match e with
  | PressTab i => setFilter (choose tabs i (courseFilter w)) w
  | PressCard i => pressCard (filtered (courseFilter w) (Some (menuItems (app w)))) i w
  | PressBackToHome => update (setStack popToTop) w
  | _ => w
  end.

(** The detail screen of an item; without an item the screen has no
    control. *)
Definition onSelectedCourse (it : MenuItem) (e : Event) (w : World) : World :=
  match e with
  | PressConfirmMeal => update (setStack (navigate Payment {| item := Some it |})) w
  | PressCancel => update (setStack goBack) w
  | _ => w
  end.

Definition onPayment (it : MenuItem) (e : Event) (w : World) : World :=
  match e with
  | TypeBank s => setPayment (fun p => {| bankName := s; accountNumber := accountNumber p |}) w
  | TypeAccount s => setPayment (fun p => {| bankName := bankName p; accountNumber := s |}) w
  | PressConfirmPayment => showAlert (onConfirmPayment it (payment w)) w
  | PressCancel => update (setStack goBack) w
  | PressBackToHome => update (setStack popToTop) w
  | _ => w
  end.

(** One event.  While an alert is on display only its buttons respond;
    otherwise the event goes to the screen of the frame on top, and a
    control that this screen does not have does nothing. *)
Definition handle (w : World) (e : Event) : World :=
  match alert w with
  | Some a => match e with PressAlert i => pressAlert a i w | _ => w end
  | None =>
      match current (stack (app w)) with
      | None => w
      | Some c =>
          match route_name c with
          | Home => onHome e w
          | Chef => onChef e w
          | GuestFilter => onGuestFilter e w
          | SelectedCourse =>
              match item (params c) with Some it => onSelectedCourse it e w | None => w end
          | Payment =>
              match item (params c) with Some it => onPayment it e w | None => w end
          | Unknown => w
          end
      end
  end.

(** The state after a sequence of events from the start of the
    application. *)
Definition play (es : list Event) : World := fold_left handle es initialWorld.

(** The state with the form [f] typed in. *)
Definition withForm (f : ChefForm) (st : AppState) : AppState :=
  {| stack := stack st; menuItems := menuItems st; form := f |}.

(** A state with no alert on display. *)
Definition worldAt (s : list Route) (items : list MenuItem) (f : ChefForm)
  (flt : string) (p : PaymentForm) : World :=
  {| app := {| stack := s; menuItems := items; form := f |};
     courseFilter := flt; payment := p; alert := None |}.

(** *** The states the user can reach *)

Definition chefFrame : Route := {| route_name := Chef; params := noParams |}.
Definition guestFrame : Route := {| route_name := GuestFilter; params := noParams |}.
Definition selectedFrame (it : MenuItem) : Route :=
  {| route_name := SelectedCourse; params := {| item := Some it |} |}.
Definition paymentFrame (it : MenuItem) : Route :=
  {| route_name := Payment; params := {| item := Some it |} |}.

(** The stacks without an item screen: Home alone, or Home under Chef or
    GuestFilter. *)
Definition bases : list (list Route) :=
  [ [initialRoute]; [initialRoute; chefFrame]; [initialRoute; guestFrame] ]%list.

(** A base, or a base under the detail screen of a stored item, or that
    under the payment screen of the same item. *)
Inductive Shape (items : list MenuItem) : list Route -> Prop :=
  | Shape_base b : In b bases -> Shape items b
  | Shape_selected b it :
      In b bases -> In it items -> Shape items (b ++ [selectedFrame it])%list
  | Shape_payment b it :
      In b bases -> In it items ->
      Shape items (b ++ [selectedFrame it; paymentFrame it])%list.

(** The add-ons a stored item can have: the choice "None" is stored as the
    empty string. *)
Definition storedAddOns : list string := ["Extra Sauce"; "Salad"; "Fries"; ""]%list.

Definition wellFormed (it : MenuItem) : Prop :=
  In (course it) COURSES
  /\ In (addOn it) storedAddOns
  /\ name it <> ""
  /\ JS.trim (name it) = name it.

(** A button that removes an item is only on display over a base. *)
Definition alertFits (w : World) : Prop :=
  match alert w with
  | None => True
  | Some a =>
      Forall (fun b => match onPress b with
                       | CallRemoveItem _ => In (stack (app w)) bases
                       | _ => True
                       end) (buttons a)
  end.

Definition Inv (w : World) : Prop :=
  Shape (menuItems (app w)) (stack (app w))
  /\ Forall wellFormed (menuItems (app w))
  /\ In (form_course (form (app w))) COURSES
  /\ In (form_addOn (form (app w))) ADDONS
  /\ In (courseFilter w) tabs
  /\ alertFits w.

(** A frame carries an item of [items], or is one of the three screens that
    take none. *)
Definition frameFits (items : list MenuItem) (c : Route) : Prop :=
  match item (params c) with
  | Some it => In it items /\ (route_name c = SelectedCourse \/ route_name c = Payment)
  | None => route_name c = Home \/ route_name c = Chef \/ route_name c = GuestFilter
  end.

(** [goBack] repeated [k] times. *)
Definition goBackTimes (k : nat) (s : list Route) : list Route := Nat.iter k goBack s.

(** Pushing the frames of [frames], one [navigate] each. *)
Definition navigateAll (frames : list Route) (s : list Route) : list Route :=
  fold_left (fun acc r => navigate (route_name r) (params r) acc) frames s.

Arguments JS.parseFloat : simpl never.
Arguments JS.toFixed : simpl never.
Arguments JS.trim : simpl never.
Arguments JS.ofNat : simpl never.

(** ** Facts about lists and filters *)

Section ListFacts.

Variable A : Type.
Variable f : A -> bool.

Lemma filter_length_split (g : A -> bool) (l : list A) :
  (forall x, f x = true -> g x = true -> False) ->
  List.length (filter (fun x => f x || g x) l)
  = (List.length (filter f l) + List.length (filter g l))%nat.
Proof.
  intros Hdisj. induction l as [|x l IH]; simpl; [reflexivity|].
  destruct (f x) eqn:Hf, (g x) eqn:Hg; simpl; try lia.
  exfalso. eauto.
Qed.

Lemma filter_all (l : list A) :
  Forall (fun x => f x = true) l -> filter f l = l.
Proof.
  induction 1 as [|x l Hx _ IH]; simpl; [reflexivity|].
  rewrite Hx, IH. reflexivity.
Qed.

Lemma filter_twice (l : list A) : filter f (filter f l) = filter f l.
Proof.
  apply filter_all. apply Forall_forall. intros x Hx.
  apply filter_In in Hx. tauto.
Qed.

End ListFacts.

Lemma filter_Kept (P : MenuItem -> Prop) (f : MenuItem -> bool) (items : list MenuItem) :
  (forall it, f it = true <-> P it) -> Kept P items (filter f items).
Proof.
  intros Hf. induction items as [|it items IH]; simpl.
  - constructor.
  - destruct (f it) eqn:E.
    + apply Kept_keep; [apply Hf; exact E | exact IH].
    + apply Kept_drop; [|exact IH]. intros HP. apply Hf in HP. congruence.
Qed.

(** [Kept] determines its output: the relation is the graph of a function. *)
Lemma Kept_functional (P : MenuItem -> Prop) (items out1 out2 : list MenuItem) :
  Kept P items out1 -> Kept P items out2 -> out1 = out2.
Proof.
  intros H1. revert out2. induction H1; intros out2 H2; inversion H2; subst;
    try reflexivity; try contradiction.
  - f_equal. auto.
  - auto.
Qed.

(** ** Facts about the averages *)

Lemma computeAverages_map (items : list MenuItem) :
  computeAverages items = map (courseEntry items) COURSES.
Proof. reflexivity. Qed.






Lemma sumCounts_fixed (items : list MenuItem) :
  sumCounts (computeAverages items)
  = List.length (filter (fun it => isFixedCourse (course it)) items).
Proof.
  rewrite computeAverages_map. unfold sumCounts, COURSES, courseEntry. simpl.
  induction items as [|it items IH]; [reflexivity|].
  unfold isFixedCourse, COURSES in *. simpl in *.
  destruct (String.eqb_spec (course it) "Starter") as [E|_]; [rewrite E; simpl; lia|].
  destruct (String.eqb_spec (course it) "Main") as [E|_]; [rewrite E; simpl; lia|].
  destruct (String.eqb_spec (course it) "Dessert") as [E|_]; [rewrite E; simpl; lia|].
  destruct (String.eqb_spec (course it) "Beverage") as [E|_]; simpl; lia.
Qed.

Lemma isFixedCourse_In (c : string) : isFixedCourse c = true <-> In c COURSES.
Proof.
  unfold isFixedCourse. rewrite existsb_exists. split.
  - intros [x [Hx E]]. apply String.eqb_eq in E. subst. exact Hx.
  - intros H. exists c. split; [exact H | apply String.eqb_refl].
Qed.

(** C8: with the filter 'All' both screens show the collection unchanged;
    with one of the four courses they show exactly the items of that course,
    in the order of the collection. *)
Theorem filter_by_course (items : list MenuItem) (c : string) (Hc : In c COURSES) :
  displayed "All" (Some items) = items
  /\ filtered "All" (Some items) = items
  /\ Kept (fun it => course it = c) items (displayed c (Some items))
  /\ Kept (fun it => course it = c) items (filtered c (Some items)).
Proof.
  split; [reflexivity|]. split; [reflexivity|].
  assert (E : (c =? "All")%string = false).
  { simpl in Hc. destruct Hc as [<-|[<-|[<-|[<-|[]]]]]; reflexivity. }
  unfold displayed, filtered. rewrite E. simpl orEmpty.
  split; apply filter_Kept; intros it; apply String.eqb_eq.
Qed.

Lemma filter_by_course_witness :
  In "Main" COURSES
  /\ Kept (fun it => course it = "Main") seedItems (displayed "Main" (Some seedItems)).
Proof.
  assert (H : In "Main" COURSES) by (simpl; tauto).
  split; [exact H|].
  exact (proj1 (proj2 (proj2 (filter_by_course seedItems "Main" H)))).
Defined.

(** ** Facts about the navigation stack *)

Lemma navigate_rooted n p s : rooted s -> rooted (navigate n p s).
Proof. intros [rest ->]. unfold navigate. simpl. eexists. reflexivity. Qed.

Lemma goBack_rooted s : rooted s -> rooted (goBack s).
Proof.
  intros [rest ->]. unfold goBack.
  destruct rest as [|r rest]; simpl; eexists; reflexivity.
Qed.

Lemma popToTop_rooted s : rooted s -> rooted (popToTop s).
Proof. intros [rest ->]. exists []%list. reflexivity. Qed.

Lemma step_rooted s op : rooted s -> rooted (step s op).
Proof.
  destruct op; simpl; auto using navigate_rooted, goBack_rooted, popToTop_rooted.
Qed.

Lemma fold_step_rooted ops : forall s, rooted s -> rooted (fold_left step ops s).
Proof.
  induction ops as [|op ops IH]; intros s Hs; simpl; [exact Hs|].
  apply IH, step_rooted, Hs.
Qed.

Lemma reachable_rooted s : reachable s -> rooted s.
Proof.
  intros [ops ->]. apply fold_step_rooted. exists []%list. reflexivity.
Qed.

Lemma goBack_snoc (init : list Route) (r0 last : Route) :
  goBack ((r0 :: init) ++ [last])%list = (r0 :: init)%list.
Proof.
  unfold goBack. rewrite length_app. simpl List.length.
  replace (1 <? S (List.length init) + 1)%nat with true
    by (symmetry; apply Nat.ltb_lt; lia).
  apply removelast_last.
Qed.

Lemma goBack_short (s : list Route) : (List.length s <= 1)%nat -> goBack s = s.
Proof.
  intros H. unfold goBack.
  replace (1 <? List.length s)%nat with false by (symmetry; apply Nat.ltb_ge; lia).
  reflexivity.
Qed.

Lemma goBack_navigate n p s : s <> []%list -> goBack (navigate n p s) = s.
Proof.
  intros Hs. destruct s as [|r0 init]; [contradiction|]. apply goBack_snoc.
Qed.

Lemma popToTop_reachable s : reachable s -> popToTop s = initialStack.
Proof. intros H. apply reachable_rooted in H. destruct H as [rest ->]. reflexivity. Qed.

Lemma current_snoc (s : list Route) (r : Route) : current (s ++ [r])%list = Some r.
Proof.
  unfold current. rewrite length_app. simpl.
  replace (List.length s + 1 - 1)%nat with (List.length s) by lia.
  rewrite nth_error_app2 by lia. rewrite Nat.sub_diag. reflexivity.
Qed.

Lemma current_rooted s : rooted s -> exists c, current s = Some c.
Proof.
  intros [rest ->]. unfold current.
  destruct (nth_error (initialRoute :: rest) (List.length (initialRoute :: rest) - 1)) eqn:E.
  - eexists. reflexivity.
  - apply nth_error_None in E. simpl in E. lia.
Qed.

(** C3: after every finite sequence of [navigate], [goBack] and [popToTop]
    calls from the initial stack, the first frame is the root frame, Home
    with no item, and the stack has at least one frame. *)
Theorem stack_keeps_root (ops : list NavOp) :
  hd_error (run ops) = Some {| route_name := Home; params := {| item := None |} |}
  /\ (1 <= List.length (run ops))%nat.
Proof.
  destruct (reachable_rooted (run ops)) as [rest E].
  - exists ops. reflexivity.
  - rewrite E. simpl. split; [reflexivity | lia].
Qed.

(** C6: [goBack] is defined on every stack.  On a stack of more than one
    frame it removes the last frame and nothing else; on a stack of at most
    one frame it changes nothing; so it changes the stack exactly when there
    is more than one frame, and on a one-frame stack a second [goBack]
    equals the first. *)
Theorem goBack_removes_last_unless_root (s : list Route) :
  (((1 < List.length s)%nat /\ exists init last, s = (init ++ [last])%list /\ goBack s = init)
   \/ ((List.length s <= 1)%nat /\ goBack s = s))
  /\ (goBack s = s <-> (List.length s <= 1)%nat)
  /\ (forall r, goBack [r]%list = [r]%list /\ goBack (goBack [r]%list) = goBack [r]%list).
Proof.
  assert (Hlong : (1 < List.length s)%nat ->
                  exists init last, s = (init ++ [last])%list /\ goBack s = init
                                    /\ List.length init = (List.length s - 1)%nat).
  { intros H. destruct (exists_last (l := s)) as [init [last E]].
    - intros ->. simpl in H. lia.
    - subst s. rewrite length_app in *. simpl in *.
      destruct init as [|r0 init]; [simpl in H; lia|].
      exists (r0 :: init)%list, last. rewrite goBack_snoc. simpl. repeat split. lia. }
  split; [|split].
  - destruct (Nat.ltb_spec 1 (List.length s)) as [H|H].
    + left. split; [exact H|]. destruct (Hlong H) as [init [last [E [G _]]]]. eauto.
    + right. split; [exact H | apply goBack_short; exact H].
  - split.
    + intros E. destruct (Nat.ltb_spec 1 (List.length s)) as [H|H]; [|exact H].
      destruct (Hlong H) as [init [last [_ [G L]]]].
      rewrite E in G. rewrite <- G in L. lia.
    + apply goBack_short.
  - intros r. split; reflexivity.
Qed.

(** C9: on every reachable stack [App] renders a screen.  A SelectedCourse
    or Payment frame without an item renders a line of text, not an error,
    and so does a frame whose name is none of the five screens; from such a
    frame [goBack] returns to the stack before it and [popToTop] to the
    root. *)
Theorem renderScreen_total (ops : list NavOp) (items : list MenuItem) (f : ChefForm) :
  (exists scr, App {| stack := run ops; menuItems := items; form := f |} = Some scr)
  /\ renderScreen {| route_name := SelectedCourse; params := {| item := None |} |} items
     = TextOnly "No item selected."
  /\ renderScreen {| route_name := Payment; params := {| item := None |} |} items
     = TextOnly "Error: Missing item for payment."
  /\ (forall p, renderScreen {| route_name := Unknown; params := p |} items
                = TextOnly "Unknown screen: Unknown")
  /\ (forall n p, n = Home \/ n = Chef \/ n = GuestFilter \/ n = SelectedCourse \/ n = Payment
                  \/ exists t, renderScreen {| route_name := n; params := p |} items = TextOnly t)
  /\ (forall n p,
        App {| stack := navigate n p (run ops); menuItems := items; form := f |}
        = Some (renderScreen {| route_name := n; params := p |} items)
        /\ goBack (navigate n p (run ops)) = run ops
        /\ popToTop (navigate n p (run ops)) = initialStack).
Proof.
  assert (Hr : reachable (run ops)) by (exists ops; reflexivity).
  pose proof (reachable_rooted _ Hr) as Hroot.
  split; [|split; [reflexivity|split; [reflexivity|split; [reflexivity|split]]]].
  - unfold App. simpl. destruct (current_rooted _ Hroot) as [c ->]. eexists. reflexivity.
  - intros n p. destruct n; auto 6.
    do 5 right. eexists. reflexivity.
  - intros n p. split; [|split].
    + unfold App, navigate. simpl. rewrite current_snoc. reflexivity.
    + apply goBack_navigate. destruct Hroot as [rest ->]. discriminate.
    + apply popToTop_reachable. exists (ops ++ [Navigate n p])%list.
      unfold run. rewrite fold_left_app. reflexivity.
Qed.

(** ** Facts about the menu store *)

Lemma removeItem_Kept (id_ : string) (items : list MenuItem) :
  Kept (fun i => id i <> id_) items (removeItem id_ items).
Proof.
  apply filter_Kept. intros i. rewrite negb_true_iff. apply String.eqb_neq.
Qed.

Lemma removeItem_absent (id_ : string) (items : list MenuItem) :
  Forall (fun i => id i <> id_) items -> removeItem id_ items = items.
Proof.
  intros H. apply filter_all. eapply Forall_impl; [|exact H].
  intros i Hi. apply negb_true_iff, String.eqb_neq, Hi.
Qed.

Lemma removeItem_none_left (id_ : string) (items : list MenuItem) :
  Forall (fun i => id i <> id_) (removeItem id_ items).
Proof.
  apply Forall_forall. intros i Hi. apply filter_In in Hi.
  destruct Hi as [_ Hi]. apply negb_true_iff, String.eqb_neq in Hi. exact Hi.
Qed.

(** C5: adding an item whose id no stored item has, then removing by that
    id, gives back the store as it was. *)
Theorem addItem_removeItem_roundtrip (item_ : MenuItem) (items : list MenuItem)
  (Hfresh : Forall (fun i => id i <> id item_) items) :
  removeItem (id item_) (addItem item_ items) = items.
Proof.
  unfold addItem. unfold removeItem at 1. simpl.
  rewrite String.eqb_refl. simpl.
  apply removeItem_absent. exact Hfresh.
Qed.

Lemma addItem_removeItem_roundtrip_witness :
  Forall (fun i => id i <> id brothItem) seedItems
  /\ removeItem (id brothItem) (addItem brothItem seedItems) = seedItems.
Proof.
  assert (H : Forall (fun i => id i <> id brothItem) seedItems).
  { repeat constructor; simpl; discriminate. }
  split; [exact H|].
  exact (addItem_removeItem_roundtrip brothItem seedItems H).
Defined.

(** C10: on every store, also one where several items share an id,
    [removeItem] removes every item with the given id and keeps the others
    in order; no item with that id is left, and removing twice equals
    removing once. *)
Theorem removeItem_removes_every_match (id_ : string) (items : list MenuItem) :
  Forall (fun i => id i <> id_) (removeItem id_ items)
  /\ Kept (fun i => id i <> id_) items (removeItem id_ items)
  /\ removeItem id_ (removeItem id_ items) = removeItem id_ items
  /\ removeItem "1" (soupAgain :: seedItems ++ [soupAgain])%list = tl seedItems.
Proof.
  split; [apply removeItem_none_left|].
  split; [apply removeItem_Kept|].
  split; [apply filter_twice | reflexivity].
Qed.

(** ** Facts about the chef form *)

Lemma truthy_nonempty (s : string) : JS.truthy s = true <-> s <> "".
Proof. destruct s; simpl; split; intros H; try discriminate; try reflexivity. contradiction. Qed.

Lemma truthy_empty (s : string) : JS.truthy s = false <-> s = "".
Proof. destruct s; simpl; split; intros H; try discriminate; reflexivity. Qed.

(** What the price test of [onAdd] lets through: the finite values that are
    not below zero, and [Infinity]. *)
Lemma price_test_passes (x : JS.number) :
  JS.isNaN x || (x <? 0)%float = false <-> finiteNonNegative x = true \/ x = infinity.
Proof.
  unfold JS.isNaN, finiteNonNegative, is_finite, is_infinity, is_nan.
  split.
  - intros H. apply orb_false_iff in H. destruct H as [Hnan Hneg].
    rewrite FloatAxioms.ltb_spec in Hneg. rewrite FloatAxioms.eqb_spec in Hnan.
    rewrite FloatAxioms.leb_spec, !FloatAxioms.eqb_spec, FloatAxioms.abs_spec.
    change (Prim2SF 0) with (S754_zero false) in *.
    change (Prim2SF infinity) with (S754_infinity false).
    destruct (Prim2SF x) as [s|s| |s m e] eqn:E.
    + left. reflexivity.
    + destruct s; [discriminate|]. right.
      rewrite <- (FloatAxioms.SF2Prim_Prim2SF x), E. reflexivity.
    + discriminate.
    + destruct s; [discriminate|]. left.
      apply negb_false_iff in Hnan. rewrite Hnan. reflexivity.
  - intros [H| ->]; [|reflexivity].
    apply andb_true_iff in H. destruct H as [Hfin Hle].
    apply negb_true_iff, orb_false_iff in Hfin. destruct Hfin as [Hnan _].
    rewrite Hnan. simpl.
    rewrite FloatAxioms.leb_spec in Hle. rewrite FloatAxioms.ltb_spec.
    change (Prim2SF 0) with (S754_zero false) in *.
    destruct (Prim2SF x) as [s|s| |s m e]; try reflexivity; try discriminate;
      destruct s; try reflexivity; discriminate.
Qed.

Lemma onAdd_turnedDown (now : N) (st : AppState) :
  turnedDown (form st) = true ->
  fst (onAdd now st) = st
  /\ title (snd (onAdd now st)) = "Validation"
  /\ buttons (snd (onAdd now st)) = []%list.
Proof.
  unfold turnedDown, onAdd. cbv zeta.
  destruct (negb (JS.truthy (JS.trim (form_name (form st))))
            || negb (JS.truthy (JS.trim (form_price (form st))))); simpl.
  - intros _. repeat split.
  - intros ->. repeat split.
Qed.

Lemma onAdd_not_turnedDown (now : N) (st : AppState) :
  turnedDown (form st) = false ->
  onAdd now st =
  ({| stack := stack st;
      menuItems :=
        {| id := JS.digitsOfN now;
           name := JS.trim (form_name (form st));
           course := form_course (form st);
           addOn := if (form_addOn (form st) =? "None")%string then "" else form_addOn (form st);
           price := round2 (JS.parseFloat (form_price (form st))) |} :: menuItems st;
      form := defaultForm |},
   {| title := "Success"; message := "Menu item added.";
      buttons := [ {| text := "OK"; onPress := CallPopToTop |} ]%list |}).
Proof.
  unfold turnedDown, onAdd. cbv zeta. intros H.
  apply orb_false_iff in H. destruct H as [H Hneg].
  apply orb_false_iff in H. destruct H as [H Hnan].
  rewrite H, Hnan, Hneg. reflexivity.
Qed.

(** The validation alert is shown exactly when the guard holds. *)
Lemma onAdd_rejects_iff (now : N) (st : AppState) :
  title (snd (onAdd now st)) = "Validation" <->
  (JS.trim (form_name (form st)) = ""
   \/ JS.trim (form_price (form st)) = ""
   \/ JS.isNaN (JS.parseFloat (form_price (form st))) = true
   \/ (JS.parseFloat (form_price (form st)) <? 0)%float = true).
Proof.
  destruct (turnedDown (form st)) eqn:E.
  - split; [intros _ | intros _; apply (onAdd_turnedDown now st E)].
    unfold turnedDown in E.
    repeat (apply orb_true_iff in E; destruct E as [E|E]); auto.
    + left. apply truthy_empty, negb_true_iff, E.
    + right; left. apply truthy_empty, negb_true_iff, E.
  - rewrite (onAdd_not_turnedDown now st E). simpl. split; [discriminate|].
    unfold turnedDown in E.
    apply orb_false_iff in E. destruct E as [E Hneg].
    apply orb_false_iff in E. destruct E as [E Hnan].
    apply orb_false_iff in E. destruct E as [Hn Hp].
    apply negb_false_iff, truthy_nonempty in Hn.
    apply negb_false_iff, truthy_nonempty in Hp.
    intros [H|[H|[H|H]]]; congruence.
Qed.

(** The submission is accepted exactly when the trimmed name and the trimmed
    price are not empty and the parsed price is a non-negative finite amount
    or [Infinity]. *)
Lemma onAdd_accepts_iff (now : N) (st : AppState) :
  title (snd (onAdd now st)) = "Success" <->
  (JS.trim (form_name (form st)) <> ""
   /\ JS.trim (form_price (form st)) <> ""
   /\ (finiteNonNegative (JS.parseFloat (form_price (form st))) = true
       \/ JS.parseFloat (form_price (form st)) = infinity)).
Proof.
  rewrite <- price_test_passes, <- !truthy_nonempty.
  destruct (turnedDown (form st)) eqn:E.
  - destruct (onAdd_turnedDown now st E) as [_ [-> _]].
    split; [discriminate|]. intros [Hn [Hp Hx]].
    unfold turnedDown in E. rewrite Hn, Hp in E. cbn [negb orb] in E.
    congruence.
  - rewrite (onAdd_not_turnedDown now st E). simpl.
    split; [intros _ | reflexivity].
    unfold turnedDown in E. rewrite <- orb_assoc in E.
    apply orb_false_iff in E. destruct E as [E Hx].
    apply orb_false_iff in E. destruct E as [Hn Hp].
    apply negb_false_iff in Hn. apply negb_false_iff in Hp. auto.
Qed.

(** C2: the code at the input that departs from the claim.  The price
    "Infinity" is not empty when trimmed and [parseFloat] reads it as
    [Infinity], as it reads a 1 followed by 309 zeros; [Infinity] is not a
    finite amount, yet it is neither [NaN] nor below zero: the submission is
    accepted and an item priced [Infinity] is put in the store. *)
Theorem onAdd_accepts_Infinity :
  JS.parseFloat "Infinity" = infinity
  /\ JS.parseFloat ("1" ++ JS.zeros 309) = infinity
  /\ finiteNonNegative infinity = false
  /\ title (snd (onAdd 1730000000000 (chefState "Pizza" "Main" "None" "Infinity"))) = "Success"
  /\ menuItems (fst (onAdd 1730000000000 (chefState "Pizza" "Main" "None" "Infinity")))
     = ({| id := "1730000000000"; name := "Pizza"; course := "Main"; addOn := "";
           price := infinity |} :: seedItems)%list.
Proof. vm_compute. repeat split. Qed.

(** C4, amended: when the form passes the guard of [onAdd], the item put at
    the front of the store has the trimmed name, the chosen course, the
    chosen add-on with the choice "None" replaced by the empty string, and
    the parsed price rounded to 2 decimals; the form is back at its defaults.
    The submission itself leaves the navigation stack as it is: it shows the
    success alert, whose one button OK, when pressed, leaves the root frame
    alone on the stack and the menu as it is.  The price text "99.999" gives
    the price 100. *)
Theorem onAdd_success (now : N) (st : AppState)
  (Hname : JS.trim (form_name (form st)) <> "")
  (Hprice : JS.trim (form_price (form st)) <> "")
  (Hnan : JS.isNaN (JS.parseFloat (form_price (form st))) = false)
  (Hneg : (JS.parseFloat (form_price (form st)) <? 0)%float = false)
  (Haddon : In (form_addOn (form st)) ADDONS)
  (Hstack : reachable (stack st)) :
  (exists it,
      menuItems (fst (onAdd now st)) = (it :: menuItems st)%list
      /\ id it = JS.digitsOfN now
      /\ name it = JS.trim (form_name (form st))
      /\ course it = form_course (form st)
      /\ addOn it = (if (form_addOn (form st) =? "None")%string then "" else form_addOn (form st))
      /\ (addOn it = "" <-> form_addOn (form st) = "None")
      /\ price it = round2 (JS.parseFloat (form_price (form st))))
  /\ form (fst (onAdd now st))
     = {| form_name := ""; form_course := "Starter"; form_addOn := "Extra Sauce"; form_price := "" |}
  /\ stack (fst (onAdd now st)) = stack st
  /\ snd (onAdd now st)
     = {| title := "Success"; message := "Menu item added.";
          buttons := [ {| text := "OK"; onPress := CallPopToTop |} ]%list |}
  /\ stack (press CallPopToTop (fst (onAdd now st)))
     = [ {| route_name := Home; params := {| item := None |} |} ]%list
  /\ menuItems (press CallPopToTop (fst (onAdd now st))) = menuItems (fst (onAdd now st))
  /\ round2 (JS.parseFloat "99.999") = 100%float.
Proof.
  assert (E : turnedDown (form st) = false).
  { unfold turnedDown. rewrite Hnan, Hneg.
    apply truthy_nonempty in Hname. apply truthy_nonempty in Hprice.
    rewrite Hname, Hprice. reflexivity. }
  rewrite (onAdd_not_turnedDown now st E). simpl.
  split; [|do 3 (split; [reflexivity|]); split; [|split; [reflexivity|]]].
  - eexists. split; [reflexivity|]. simpl. repeat split.
    + destruct (String.eqb_spec (form_addOn (form st)) "None") as [H|H]; [intros _; exact H|].
      intros H0. rewrite H0 in Haddon. simpl in Haddon.
      destruct Haddon as [D|[D|[D|[D|[]]]]]; discriminate.
    + intros ->. reflexivity.
  - apply (popToTop_reachable _ Hstack).
  - vm_compute. reflexivity.
Qed.

Lemma onAdd_success_witness :
  exists it,
    menuItems (fst (onAdd 1730000000000 (chefState " Pizza " "Main" "None" "99.999")))
    = (it :: seedItems)%list
    /\ name it = "Pizza" /\ course it = "Main" /\ addOn it = "" /\ price it = 100%float.
Proof.
  destruct (onAdd_success 1730000000000 (chefState " Pizza " "Main" "None" "99.999"))
    as [[it [Hm [_ [Hn [Hc [Ha [_ Hp]]]]]]] _].
  - vm_compute. discriminate.
  - vm_compute. discriminate.
  - vm_compute. reflexivity.
  - vm_compute. reflexivity.
  - simpl. tauto.
  - exists [Navigate Chef noParams]%list. reflexivity.
  - exists it. split; [exact Hm|]. split; [exact Hn|]. split; [exact Hc|].
    split; [exact Ha|]. rewrite Hp. vm_compute. reflexivity.
Defined.

(** ** More about the navigation stack *)

Lemma navigateAll_app (frames s : list Route) : navigateAll frames s = (s ++ frames)%list.
Proof.
  unfold navigateAll. revert s.
  induction frames as [|r frames IH]; intros s; simpl.
  - symmetry. apply app_nil_r.
  - rewrite IH. unfold navigate. rewrite <- app_assoc. destruct r. reflexivity.
Qed.

Lemma goBackTimes_succ (k : nat) (s : list Route) :
  goBackTimes (S k) s = goBackTimes k (goBack s).
Proof.
  unfold goBackTimes. induction k as [|k IH]; simpl in *; [reflexivity|].
  rewrite IH. reflexivity.
Qed.

Lemma goBack_firstn (m : nat) (s : list Route) :
  (1 <= m <= Nat.max 1 (List.length s))%nat ->
  goBack (firstn m s) = firstn (Nat.max 1 (m - 1)) s.
Proof.
  intros Hm. unfold goBack. rewrite length_firstn.
  destruct (Nat.ltb_spec 1 (Nat.min m (List.length s))) as [H|H].
  - replace (Nat.max 1 (m - 1)) with (m - 1)%nat by lia.
    replace m with (S (m - 1)) at 1 by lia.
    apply removelast_firstn. lia.
  - destruct (Nat.le_gt_cases m 1) as [H1|H1].
    + replace (Nat.max 1 (m - 1)) with m by lia. reflexivity.
    + rewrite !firstn_all2 by lia. reflexivity.
Qed.

(** X1: [popToTop] cuts every stack down to its first frame, which it
    keeps; it leaves the empty stack empty, and a second [popToTop] changes
    nothing. *)
Theorem popToTop_first_frame (s : list Route) :
  popToTop s = firstn 1 s
  /\ hd_error (popToTop s) = hd_error s
  /\ popToTop (popToTop s) = popToTop s
  /\ (List.length (popToTop s) = Nat.min 1 (List.length s))%nat.
Proof. destruct s as [|r s]; repeat split. Qed.

(** X2: on a stack that is not empty, pushing any frames and then going back
    once per frame gives the stack back.  On the empty stack the first frame
    pushed stays. *)
Theorem goBack_undoes_navigate (frames s : list Route) (Hs : s <> []%list) :
  goBackTimes (List.length frames) (navigateAll frames s) = s
  /\ goBackTimes (List.length frames) (navigateAll frames []%list) = firstn 1 frames.
Proof.
  rewrite !navigateAll_app. split.
  - induction frames as [|x frames IH] using rev_ind; simpl.
    + rewrite app_nil_r. reflexivity.
    + rewrite length_app. simpl. rewrite Nat.add_comm. simpl plus.
      rewrite goBackTimes_succ, app_assoc.
      destruct s as [|r0 s]; [contradiction|].
      change ((r0 :: s) ++ frames)%list with (r0 :: (s ++ frames))%list.
      rewrite goBack_snoc. exact IH.
  - simpl. clear Hs. induction frames as [|x frames IH] using rev_ind; [reflexivity|].
    rewrite length_app. simpl. rewrite Nat.add_comm. simpl plus.
    rewrite goBackTimes_succ.
    destruct frames as [|r0 frames]; [reflexivity|].
    change ((r0 :: frames) ++ [x])%list with ((r0 :: frames) ++ [x])%list.
    rewrite goBack_snoc. exact IH.
Qed.

Lemma goBack_undoes_navigate_witness :
  goBackTimes 2 (navigateAll [chefFrame; selectedFrame brothItem]%list initialStack)
  = initialStack.
Proof.
  refine (proj1 (goBack_undoes_navigate [chefFrame; selectedFrame brothItem]%list
                                        initialStack _)).
  discriminate.
Defined.

(** X3: going back [k] times keeps the first [length s - k] frames, and one
    frame at least when there is one; so going back as often as there are
    frames, or more often, is [popToTop]. *)
Theorem goBack_repeated (s : list Route) (k : nat) :
  goBackTimes k s = firstn (Nat.max 1 (List.length s - k)) s
  /\ goBackTimes (List.length s - 1 + k) s = popToTop s.
Proof.
  assert (H : forall j, goBackTimes j s = firstn (Nat.max 1 (List.length s - j)) s).
  { induction j as [|j IH].
    - change (goBackTimes 0 s) with s. apply eq_sym, firstn_all2. lia.
    - change (goBackTimes (S j) s) with (goBack (goBackTimes j s)).
      rewrite IH, goBack_firstn by lia.
      f_equal. lia. }
  split; [apply H|].
  rewrite H. replace (Nat.max 1 _) with 1%nat by lia.
  destruct s; reflexivity.
Qed.

(** X4: the current frame is the last one: none on the empty stack only, the
    frame just pushed after [navigate], and after a [goBack] that follows a
    [navigate] the frame that was current before. *)
Theorem current_is_last (s : list Route) (n : ScreenName) (p : Params) :
  (current s = None <-> s = []%list)
  /\ current (navigate n p s) = Some {| route_name := n; params := p |}
  /\ (s = []%list \/ current (goBack (navigate n p s)) = current s).
Proof.
  split; [|split].
  - unfold current. rewrite nth_error_None. split.
    + destruct s; [reflexivity | simpl; lia].
    + intros ->. simpl. lia.
  - apply current_snoc.
  - destruct s as [|r0 s]; [left; reflexivity | right].
    unfold navigate. rewrite goBack_snoc. reflexivity.
Qed.

(** ** More about the menu store *)

Lemma removeItem_cons (id_ : string) (it : MenuItem) (items : list MenuItem) :
  removeItem id_ (it :: items)%list
  = if (id it =? id_)%string then removeItem id_ items else (it :: removeItem id_ items)%list.
Proof. unfold removeItem. simpl. destruct (id it =? id_)%string; reflexivity. Qed.

(** X5: [removeItem] leaves the store as it is exactly when no item has the
    id; hence adding an item and removing by its id gives the store back
    exactly when the id was not in the store before: otherwise the older
    items with that id are gone as well. *)
Theorem removeItem_noop_iff_absent (it : MenuItem) (id_ : string) (items : list MenuItem) :
  (removeItem id_ items = items <-> Forall (fun i => id i <> id_) items)
  /\ (removeItem (id it) (addItem it items) = items
      <-> Forall (fun i => id i <> id it) items)
  /\ removeItem (id it) (addItem it items) = removeItem (id it) items.
Proof.
  assert (H : forall x, removeItem x items = items <-> Forall (fun i => id i <> x) items).
  { intros x. split.
    - intros E. rewrite <- E. apply removeItem_none_left.
    - apply removeItem_absent. }
  assert (E : removeItem (id it) (addItem it items) = removeItem (id it) items).
  { unfold addItem. rewrite removeItem_cons, String.eqb_refl. reflexivity. }
  split; [apply H|]. split; [|exact E].
  rewrite E. apply H.
Qed.

(** X6: removals commute, a removal never makes the store longer, and the
    items it takes out are as many as the items with the id. *)
Theorem removeItem_commutes (a b : string) (items : list MenuItem) :
  removeItem a (removeItem b items) = removeItem b (removeItem a items)
  /\ (List.length (removeItem a items)
      + List.length (filter (fun i => (id i =? a)%string) items)
      = List.length items)%nat.
Proof.
  split.
  - induction items as [|it items IH]; [reflexivity|].
    rewrite !removeItem_cons.
    destruct (id it =? a)%string eqn:Ea, (id it =? b)%string eqn:Eb;
      rewrite ?removeItem_cons, ?Ea, ?Eb, IH; reflexivity.
  - induction items as [|it items IH]; [reflexivity|].
    rewrite removeItem_cons. simpl.
    destruct (id it =? a)%string; simpl; lia.
Qed.

(** ** More about the home screen *)

Lemma displayed_filtered (f : string) (m : option (list MenuItem)) :
  displayed f m = filtered f m.
Proof. reflexivity. Qed.

(** X7: an added item raises the count of its own course by one and no
    other count; the sum of the counts goes up by one exactly when the
    course of the item is one of the four. *)
Theorem computeAverages_counts_addItem (it : MenuItem) (items : list MenuItem) :
  map count (computeAverages (addItem it items))
  = map (fun e => ((if (course it =? avg_course e)%string then 1 else 0) + count e)%nat)
        (computeAverages items)
  /\ sumCounts (computeAverages (addItem it items))
     = ((if isFixedCourse (course it) then 1 else 0) + sumCounts (computeAverages items))%nat.
Proof.
  split.
  - rewrite !computeAverages_map, !map_map. apply map_ext. intros c.
    unfold courseEntry, addItem. simpl.
    destruct (course it =? c)%string; reflexivity.
  - rewrite !sumCounts_fixed. unfold addItem. simpl.
    destruct (isFixedCourse (course it)); reflexivity.
Qed.

(** X8: the count shown beside a course on the home screen is the number of
    cards that the filter of that course shows, on the home screen and on
    the guest screen; the filter 'All' shows as many cards as the total. *)
Theorem count_matches_filtered_list (items : list MenuItem) :
  Forall (fun e =>
            List.length (displayed (avg_course e) (Some items)) = count e
            /\ List.length (filtered (avg_course e) (Some items)) = count e)
         (computeAverages items)
  /\ List.length (displayed "All" (Some items)) = List.length items.
Proof.
  split; [|reflexivity].
  rewrite computeAverages_map. unfold COURSES. repeat constructor.
Qed.

(** X9: filtering what a filter shows changes nothing, every card shown is
    an item of the menu, and a menu that is not there shows no card.  This
    holds for every filter text, one of the tabs or not. *)
Theorem displayed_idempotent (f : string) (items : list MenuItem) :
  displayed f (Some (displayed f (Some items))) = displayed f (Some items)
  /\ incl (displayed f (Some items)) items
  /\ displayed f None = []%list
  /\ filtered f None = []%list.
Proof.
  unfold displayed, filtered. simpl orEmpty.
  destruct (f =? "All")%string.
  - repeat split. apply incl_refl.
  - split; [apply filter_twice|]. split; [apply incl_filter|]. split; reflexivity.
Qed.

(** X10: when every item is of one and the same fixed course, the entry of
    that course has the count of the whole menu and its average is the
    overall average. *)
Theorem single_course_average (c : string) (items : list MenuItem)
  (Hc : In c COURSES) (Hall : Forall (fun it => course it = c) items) :
  exists e, In e (computeAverages items)
            /\ avg_course e = c
            /\ count e = List.length items
            /\ average e = overallAverage items.
Proof.
  exists (courseEntry items c). split.
  - rewrite computeAverages_map. apply in_map. exact Hc.
  - assert (E : filter (fun it => (course it =? c)%string) items = items).
    { apply filter_all. eapply Forall_impl; [|exact Hall].
      intros it Hit. apply String.eqb_eq. exact Hit. }
    unfold courseEntry, overallAverage. simpl. rewrite E.
    repeat split. destruct items; reflexivity.
Qed.

Lemma single_course_average_witness :
  exists e, In e (computeAverages [soupAgain; soupAgain]%list)
            /\ avg_course e = "Starter"
            /\ count e = 2%nat
            /\ average e = overallAverage [soupAgain; soupAgain]%list.
Proof.
  apply (single_course_average "Starter" [soupAgain; soupAgain]%list).
  - simpl. tauto.
  - repeat constructor.
Defined.

(** ** More about the chef form and the payment form *)

Lemma to_uint_nonnil (n : N) : N.to_uint n <> Decimal.Nil.
Proof.
  destruct n as [|p]; simpl; [discriminate|].
  apply DecimalPos.Unsigned.to_uint_nonnil.
Qed.

Lemma digitsOfN_inj (n n' : N) : JS.digitsOfN n = JS.digitsOfN n' -> n = n'.
Proof.
  unfold JS.digitsOfN. intros E.
  apply DecimalN.Unsigned.to_uint_inj.
  pose proof (NilZero.usu _ (to_uint_nonnil n)) as H.
  pose proof (NilZero.usu _ (to_uint_nonnil n')) as H'.
  rewrite E in H. congruence.
Qed.

(** X11: the payment is refused exactly when the trimmed bank name or the
    trimmed account number is empty, and then the alert has no handler;
    otherwise the alert has the one button OK; no button of either alert
    touches the menu or the chef form, and each leaves the root frame alone
    on a stack that starts with it. *)
Theorem onConfirmPayment_checks_both_fields (it : MenuItem) (p : PaymentForm) (st : AppState) :
  (title (onConfirmPayment it p) = "Validation"
   <-> JS.trim (bankName p) = "" \/ JS.trim (accountNumber p) = "")
  /\ (title (onConfirmPayment it p) = "Validation" /\ buttons (onConfirmPayment it p) = []%list
      \/ title (onConfirmPayment it p) = "Payment confirmed"
         /\ map text (buttons (onConfirmPayment it p)) = ["OK"]%list)
  /\ Forall (fun b =>
               menuItems (press (onPress b) st) = menuItems st
               /\ form (press (onPress b) st) = form st
               /\ stack (press (onPress b) st) = firstn 1 (stack st))
            (buttons (onConfirmPayment it p)).
Proof.
  unfold onConfirmPayment.
  destruct (JS.truthy (JS.trim (bankName p))) eqn:Eb;
    destruct (JS.truthy (JS.trim (accountNumber p))) eqn:Ea; simpl;
    try apply truthy_nonempty in Eb; try apply truthy_empty in Eb;
    try apply truthy_nonempty in Ea; try apply truthy_empty in Ea.
  - split; [split; [discriminate | intros [H|H]; contradiction]|].
    split; [right; split; reflexivity|].
    repeat constructor. simpl. destruct (stack st); reflexivity.
  - split; [split; auto|]. split; [left; split; reflexivity | constructor].
  - split; [split; auto|]. split; [left; split; reflexivity | constructor].
  - split; [split; auto|]. split; [left; split; reflexivity | constructor].
Qed.

(** X12: the add-on chosen on the form is the add-on the detail screen of
    the new item shows, "None" included; the cards show 'No add-ons' for
    "None" and the chosen add-on otherwise. *)
Theorem addOn_shown_as_chosen (now : N) (st : AppState)
  (Hok : turnedDown (form st) = false)
  (Haddon : In (form_addOn (form st)) ADDONS) :
  exists it,
    hd_error (menuItems (fst (onAdd now st))) = Some it
    /\ detailAddOn it = form_addOn (form st)
    /\ cardAddOn it
       = (if (form_addOn (form st) =? "None")%string then "No add-ons"
          else form_addOn (form st)).
Proof.
  rewrite (onAdd_not_turnedDown now st Hok). simpl.
  eexists. split; [reflexivity|].
  unfold detailAddOn, cardAddOn. simpl in *.
  destruct Haddon as [<-|[<-|[<-|[<-|[]]]]]; split; reflexivity.
Qed.

Lemma addOn_shown_as_chosen_witness :
  exists it,
    hd_error (menuItems (fst (onAdd 5 (chefState "Pizza" "Main" "None" "80")))) = Some it
    /\ detailAddOn it = "None"
    /\ cardAddOn it = "No add-ons".
Proof.
  apply (addOn_shown_as_chosen 5 (chefState "Pizza" "Main" "None" "80")).
  - vm_compute. reflexivity.
  - simpl. tauto.
Defined.

(** X13: two accepted submissions at the same clock reading get the same
    id, so the store holds that id twice, and removing by it takes out both
    items. *)
Theorem same_clock_same_id (now : N) (st : AppState) (f2 : ChefForm)
  (H1 : turnedDown (form st) = false) (H2 : turnedDown f2 = false) :
  let st2 := fst (onAdd now (withForm f2 (fst (onAdd now st)))) in
  (exists it2 it1,
      menuItems st2 = (it2 :: it1 :: menuItems st)%list
      /\ id it1 = JS.digitsOfN now /\ id it2 = JS.digitsOfN now)
  /\ ~ NoDup (map id (menuItems st2))
  /\ removeItem (JS.digitsOfN now) (menuItems st2)
     = removeItem (JS.digitsOfN now) (menuItems st).
Proof.
  cbv zeta.
  rewrite (onAdd_not_turnedDown now st H1). simpl fst.
  match goal with
  | |- context [onAdd ?n (withForm f2 ?x)] =>
      rewrite (onAdd_not_turnedDown n (withForm f2 x) H2)
  end. cbn [fst menuItems withForm].
  split; [|split].
  - do 2 eexists. repeat split.
  - simpl. intros H. inversion H as [|x l Hnin _]; subst. apply Hnin. left. reflexivity.
  - rewrite !removeItem_cons. cbn [id]. rewrite String.eqb_refl. reflexivity.
Qed.

Lemma same_clock_same_id_witness :
  removeItem (JS.digitsOfN 5)
    (menuItems (fst (onAdd 5 (withForm (form (chefState "Pasta" "Main" "Salad" "60"))
                               (fst (onAdd 5 (chefState "Pizza" "Main" "None" "80")))))))
  = removeItem (JS.digitsOfN 5) seedItems.
Proof.
  refine (proj2 (proj2 (same_clock_same_id 5 (chefState "Pizza" "Main" "None" "80")
                          (form (chefState "Pasta" "Main" "Salad" "60")) _ _))).
  - vm_compute. reflexivity.
  - vm_compute. reflexivity.
Defined.

(** X14: when the ids of the store are pairwise distinct and neither clock
    reading gives an id of the store, two accepted submissions leave the ids
    pairwise distinct exactly when their clock readings differ. *)
Theorem ids_distinct_iff_clocks_differ (now1 now2 : N) (st : AppState) (f2 : ChefForm)
  (H1 : turnedDown (form st) = false) (H2 : turnedDown f2 = false)
  (Hnodup : NoDup (map id (menuItems st)))
  (Hfresh1 : ~ In (JS.digitsOfN now1) (map id (menuItems st)))
  (Hfresh2 : ~ In (JS.digitsOfN now2) (map id (menuItems st))) :
  NoDup (map id (menuItems (fst (onAdd now2 (withForm f2 (fst (onAdd now1 st)))))))
  <-> now1 <> now2.
Proof.
  rewrite (onAdd_not_turnedDown now1 st H1). simpl fst.
  match goal with
  | |- context [onAdd ?n (withForm f2 ?x)] =>
      rewrite (onAdd_not_turnedDown n (withForm f2 x) H2)
  end. simpl.
  split.
  - intros H E. subst now2. inversion H as [|x l Hnin _]; subst.
    apply Hnin. left. reflexivity.
  - intros Hne. constructor.
    + intros [E|Hin]; [|contradiction].
      apply Hne. apply digitsOfN_inj. exact E.
    + constructor; assumption.
Qed.

Lemma ids_distinct_iff_clocks_differ_witness :
  NoDup (map id (menuItems
           (fst (onAdd 6 (withForm (form (chefState "Pasta" "Main" "Salad" "60"))
                            (fst (onAdd 5 (chefState "Pizza" "Main" "None" "80"))))))))
  <-> 5%N <> 6%N.
Proof.
  apply ids_distinct_iff_clocks_differ.
  - vm_compute. reflexivity.
  - vm_compute. reflexivity.
  - repeat constructor; simpl; intuition discriminate.
  - vm_compute. intuition discriminate.
  - vm_compute. intuition discriminate.
Defined.

(** ** Facts about [trim] *)

Lemma trimStart_fixed (c : ascii) (t : string) :
  JS.isWhiteSpace c = false -> JS.trimStart (String c t) = String c t.
Proof. intros H. simpl. rewrite H. reflexivity. Qed.

Lemma trimStart_head (s : string) :
  JS.trimStart s = "" \/ exists c t, JS.trimStart s = String c t /\ JS.isWhiteSpace c = false.
Proof.
  induction s as [|c s IH]; simpl; [left; reflexivity|].
  destruct (JS.isWhiteSpace c) eqn:E; [exact IH|].
  right. exists c, s. split; [reflexivity | exact E].
Qed.

Lemma trimEnd_idempotent (s : string) : JS.trimEnd (JS.trimEnd s) = JS.trimEnd s.
Proof.
  induction s as [|c s IH]; [reflexivity|]. simpl.
  destruct (JS.trimEnd s) as [|d t] eqn:E.
  - destruct (JS.isWhiteSpace c) eqn:W; simpl; [reflexivity | rewrite W; reflexivity].
  - change (JS.trimEnd (String c (String d t)))
      with (match JS.trimEnd (String d t) with
            | EmptyString => if JS.isWhiteSpace c then EmptyString else String c EmptyString
            | u => String c u
            end).
    rewrite IH. reflexivity.
Qed.

Lemma trimEnd_head (c : ascii) (t : string) :
  JS.isWhiteSpace c = false -> exists u, JS.trimEnd (String c t) = String c u.
Proof.
  intros W. simpl. destruct (JS.trimEnd t); [rewrite W|]; eexists; reflexivity.
Qed.

Lemma trim_idempotent (s : string) : JS.trim (JS.trim s) = JS.trim s.
Proof.
  unfold JS.trim.
  destruct (trimStart_head s) as [E|[c [t [E W]]]]; rewrite E; [reflexivity|].
  destruct (trimEnd_head c t W) as [u Eu].
  rewrite Eu, (trimStart_fixed c u W), <- Eu. apply trimEnd_idempotent.
Qed.

(** ** Facts about the reachable states *)

Lemma choose_In (options : list string) (i : nat) (v : string) :
  In v options -> In (choose options i v) options.
Proof.
  intros Hv. unfold choose. destruct (nth_error options i) eqn:E; [|exact Hv].
  eapply nth_error_In. exact E.
Qed.

Lemma Shape_popToTop (items : list MenuItem) (s : list Route) :
  Shape items s -> popToTop s = [initialRoute]%list.
Proof.
  intros H. inversion H as [b Hb|b it Hb _|b it Hb _]; subst;
    simpl in Hb; destruct Hb as [<-|[<-|[<-|[]]]]; reflexivity.
Qed.

Lemma Shape_incl (items items' : list MenuItem) (s : list Route) :
  incl items items' -> Shape items s -> Shape items' s.
Proof.
  intros Hi H. inversion H; subst;
    [apply Shape_base | apply Shape_selected | apply Shape_payment]; auto.
Qed.

Lemma wellFormed_seed : Forall wellFormed seedItems.
Proof.
  repeat constructor; simpl; try tauto; try discriminate; reflexivity.
Qed.

Lemma Inv_initial : Inv initialWorld.
Proof.
  unfold Inv. simpl. split; [apply Shape_base; simpl; tauto|].
  split; [apply wellFormed_seed|]. repeat split; tauto.
Qed.

Lemma update_Inv (f : AppState -> AppState) (w : World) :
  alert w = None ->
  Shape (menuItems (f (app w))) (stack (f (app w))) ->
  Forall wellFormed (menuItems (f (app w))) ->
  In (form_course (form (f (app w)))) COURSES ->
  In (form_addOn (form (f (app w)))) ADDONS ->
  In (courseFilter w) tabs ->
  Inv (update f w).
Proof.
  intros Ha Hs Hi Hc Hd Hf. unfold update, Inv, alertFits.
  destruct (sameTop _ _); simpl; rewrite Ha; repeat split; auto; simpl; tauto.
Qed.

Lemma setStack_Inv (upd : list Route -> list Route) (w : World) :
  Inv w -> alert w = None ->
  Shape (menuItems (app w)) (upd (stack (app w))) ->
  Inv (update (setStack upd) w).
Proof.
  intros (Hs & Hi & Hc & Hd & Hf & _) Ha Hs'.
  apply update_Inv; simpl; auto.
Qed.

Lemma setForm_Inv (f : ChefForm -> ChefForm) (w : World) :
  Inv w ->
  In (form_course (f (form (app w)))) COURSES ->
  In (form_addOn (f (form (app w)))) ADDONS ->
  Inv (setForm f w).
Proof.
  intros (Hs & Hi & Hc & Hd & Hf & Hal) Hc' Hd'.
  unfold Inv, setForm, alertFits in *. simpl. repeat split; auto.
Qed.

Lemma pressCard_Inv (shown : list MenuItem) (i : nat) (w : World) (b : list Route) :
  Inv w -> alert w = None -> In b bases -> stack (app w) = b ->
  incl shown (menuItems (app w)) ->
  Inv (pressCard shown i w).
Proof.
  intros H Ha Hb Es Hincl. unfold pressCard.
  destruct (nth_error shown i) as [it|] eqn:E; [|exact H].
  apply setStack_Inv; auto. rewrite Es.
  apply Shape_selected; [exact Hb|]. apply Hincl. eapply nth_error_In. exact E.
Qed.

Lemma onAdd_wellFormed (now : N) (st : AppState) :
  Forall wellFormed (menuItems st) ->
  In (form_course (form st)) COURSES ->
  In (form_addOn (form st)) ADDONS ->
  Forall wellFormed (menuItems (fst (onAdd now st)))
  /\ In (form_course (form (fst (onAdd now st)))) COURSES
  /\ In (form_addOn (form (fst (onAdd now st)))) ADDONS
  /\ stack (fst (onAdd now st)) = stack st
  /\ incl (menuItems st) (menuItems (fst (onAdd now st)))
  /\ Forall (fun b => onPress b = CallPopToTop) (buttons (snd (onAdd now st))).
Proof.
  intros Hi Hc Hd. destruct (turnedDown (form st)) eqn:E.
  - destruct (onAdd_turnedDown now st E) as (-> & _ & ->).
    repeat split; auto using incl_refl.
  - rewrite (onAdd_not_turnedDown now st E). simpl.
    split; [|repeat split; simpl; auto using incl_tl, incl_refl; tauto].
    constructor; [|exact Hi].
    unfold turnedDown in E.
    apply orb_false_iff in E. destruct E as [E _].
    apply orb_false_iff in E. destruct E as [E _].
    apply orb_false_iff in E. destruct E as [Hn _].
    apply negb_false_iff, truthy_nonempty in Hn.
    unfold wellFormed. simpl. split; [exact Hc|]. split; [|split].
    + simpl in Hd. destruct Hd as [<-|[<-|[<-|[<-|[]]]]]; simpl; tauto.
    + exact Hn.
    + apply trim_idempotent.
Qed.

Lemma removeItem_wellFormed (id_ : string) (items : list MenuItem) :
  Forall wellFormed items -> Forall wellFormed (removeItem id_ items).
Proof.
  intros H. apply Forall_forall. intros it Hit.
  apply filter_In in Hit. destruct Hit as [Hit _].
  revert it Hit. apply Forall_forall. exact H.
Qed.

Lemma pressAlert_Inv (a : Alert) (i : nat) (w : World) :
  Inv w -> alert w = Some a -> Inv (pressAlert a i w).
Proof.
  intros H Ea. pose proof H as (Hs & Hi & Hc & Hd & Hf & Hal).
  assert (Hdis : Inv (dismiss w)).
  { unfold Inv, dismiss, alertFits. simpl. repeat split; auto. }
  unfold pressAlert. destruct (buttons a) as [|b0 bs] eqn:Eb.
  - destruct (i =? 0)%nat; assumption.
  - destruct (nth_error (b0 :: bs) i) as [b|] eqn:En; [|exact H].
    unfold alertFits in Hal. rewrite Ea, Eb in Hal.
    apply nth_error_In in En.
    assert (Hb := proj1 (Forall_forall _ _) Hal b En). simpl in Hb.
    apply update_Inv; simpl; auto.
    + destruct (onPress b); simpl; auto.
      * rewrite (Shape_popToTop _ _ Hs). apply Shape_base. simpl. tauto.
      * apply Shape_base. exact Hb.
    + destruct (onPress b); simpl; auto using removeItem_wellFormed.
    + destruct (onPress b); simpl; auto.
    + destruct (onPress b); simpl; auto.
Qed.

Lemma displayed_incl (f : string) (items : list MenuItem) :
  incl (displayed f (Some items)) items.
Proof.
  unfold displayed. simpl. destruct (f =? "All")%string; [apply incl_refl | apply incl_filter].
Qed.

Lemma setFilter_Inv (i : nat) (w : World) :
  Inv w -> Inv (setFilter (choose tabs i (courseFilter w)) w).
Proof.
  intros (Hs & Hi & Hc & Hd & Hf & Hal).
  do 4 (split; [assumption|]). split; [apply choose_In, Hf | exact Hal].
Qed.

Lemma showAlert_Inv (a : Alert) (w : World) :
  Inv w ->
  Forall (fun b => match onPress b with
                   | CallRemoveItem _ => In (stack (app w)) bases
                   | _ => True
                   end) (buttons a) ->
  Inv (showAlert a w).
Proof.
  intros (Hs & Hi & Hc & Hd & Hf & _) Hb.
  unfold Inv, showAlert, alertFits. simpl. repeat split; auto.
Qed.

Lemma onHome_Inv (e : Event) (w : World) :
  Inv w -> alert w = None -> stack (app w) = [initialRoute]%list -> Inv (onHome e w).
Proof.
  intros H Ha Es. destruct e; simpl; try exact H.
  - apply setFilter_Inv, H.
  - apply (pressCard_Inv _ _ _ [initialRoute]%list); auto using displayed_incl.
    simpl. tauto.
  - apply setStack_Inv; auto. rewrite Es. apply Shape_base. simpl. tauto.
  - apply setStack_Inv; auto. rewrite Es. apply Shape_base. simpl. tauto.
Qed.

Lemma onGuestFilter_Inv (e : Event) (w : World) :
  Inv w -> alert w = None -> stack (app w) = [initialRoute; guestFrame]%list ->
  Inv (onGuestFilter e w).
Proof.
  intros H Ha Es. destruct e; simpl; try exact H.
  - apply setFilter_Inv, H.
  - apply (pressCard_Inv _ _ _ [initialRoute; guestFrame]%list);
      auto using displayed_incl.
    simpl. tauto.
  - apply setStack_Inv; auto. rewrite Es. apply Shape_base. simpl. tauto.
Qed.

Lemma onChef_Inv (e : Event) (w : World) :
  Inv w -> alert w = None -> stack (app w) = [initialRoute; chefFrame]%list ->
  Inv (onChef e w).
Proof.
  intros H Ha Es. pose proof H as (Hs & Hi & Hc & Hd & Hf & Hal).
  assert (Hbase : In (stack (app w)) bases) by (rewrite Es; simpl; tauto).
  destruct e; cbn beta iota delta [onChef]; try exact H.
  - apply (pressCard_Inv _ _ _ [initialRoute; chefFrame]%list);
      auto using incl_refl.
    simpl. tauto.
  - apply setForm_Inv; cbn beta iota delta [form_course form_addOn]; auto using choose_In.
  - apply setForm_Inv; cbn beta iota delta [form_course form_addOn]; auto using choose_In.
  - destruct (onAdd_wellFormed now (app w) Hi Hc Hd) as (Hi' & Hc' & Hd' & Es' & Hincl & Hb).
    destruct (onAdd now (app w)) as [a' al]. simpl in *.
    unfold Inv, showAlert, alertFits. simpl. repeat split; auto.
    + rewrite Es', Es. apply Shape_base. simpl. tauto.
    + eapply Forall_impl; [|exact Hb]. intros b ->. exact I.
  - apply setForm_Inv; simpl; tauto.
  - destruct (nth_error (menuItems (app w)) i) as [it|]; [|exact H].
    apply showAlert_Inv; [exact H|]. unfold confirmRemove. cbn [buttons].
    constructor; [exact I|]. constructor; [exact Hbase | constructor].
  - apply setStack_Inv; auto. rewrite Es. apply Shape_base. simpl. tauto.
Qed.

Lemma onSelectedCourse_Inv (it : MenuItem) (e : Event) (w : World) (b : list Route) :
  Inv w -> alert w = None -> In b bases -> In it (menuItems (app w)) ->
  stack (app w) = (b ++ [selectedFrame it])%list ->
  Inv (onSelectedCourse it e w).
Proof.
  intros H Ha Hb Hit Es. destruct e; simpl; try exact H.
  - apply setStack_Inv; auto. rewrite Es. unfold navigate. rewrite <- app_assoc.
    apply Shape_payment; assumption.
  - apply setStack_Inv; auto. rewrite Es.
    replace (goBack (b ++ [selectedFrame it])) with b
      by (simpl in Hb; destruct Hb as [<-|[<-|[<-|[]]]]; reflexivity).
    apply Shape_base. exact Hb.
Qed.

Lemma onPayment_Inv (it : MenuItem) (e : Event) (w : World) (b : list Route) :
  Inv w -> alert w = None -> In b bases -> In it (menuItems (app w)) ->
  stack (app w) = (b ++ [selectedFrame it; paymentFrame it])%list ->
  Inv (onPayment it e w).
Proof.
  intros H Ha Hb Hit Es. pose proof H as (Hs & Hi & Hc & Hd & Hf & Hal).
  destruct e; simpl; try exact H.
  - apply setStack_Inv; auto. rewrite (Shape_popToTop _ _ Hs).
    apply Shape_base. simpl. tauto.
  - apply setStack_Inv; auto. rewrite Es.
    replace (goBack (b ++ [selectedFrame it; paymentFrame it]))
      with (b ++ [selectedFrame it])%list
      by (simpl in Hb; destruct Hb as [<-|[<-|[<-|[]]]]; reflexivity).
    apply Shape_selected; assumption.
  - apply showAlert_Inv; [exact H|]. unfold onConfirmPayment.
    destruct (negb _ || negb _); simpl; repeat constructor.
Qed.

Lemma Shape_cases (items : list MenuItem) (s : list Route) :
  Shape items s ->
  In s bases
  \/ (exists b it, In b bases /\ In it items /\ s = (b ++ [selectedFrame it])%list)
  \/ (exists b it, In b bases /\ In it items
                   /\ s = (b ++ [selectedFrame it; paymentFrame it])%list).
Proof.
  intros H. destruct H as [b Hb|b it Hb Hit|b it Hb Hit]; eauto 8.
Qed.

Lemma handle_Inv (w : World) (e : Event) : Inv w -> Inv (handle w e).
Proof.
  intros H. unfold handle. destruct (alert w) as [a|] eqn:Ea.
  - destruct e; try exact H. apply pressAlert_Inv; assumption.
  - pose proof H as (Hs & _).
    destruct (Shape_cases _ _ Hs) as [Hb|[(b & it & Hb & Hit & Es)|(b & it & Hb & Hit & Es)]].
    + simpl in Hb. destruct Hb as [Es|[Es|[Es|[]]]]; symmetry in Es; rewrite Es; simpl.
      * apply onHome_Inv; assumption.
      * apply onChef_Inv; assumption.
      * apply onGuestFilter_Inv; assumption.
    + rewrite Es.
      replace (current (b ++ [selectedFrame it])) with (Some (selectedFrame it))
        by (symmetry; apply current_snoc).
      simpl. apply (onSelectedCourse_Inv it e w b); assumption.
    + rewrite Es.
      replace (current (b ++ [selectedFrame it; paymentFrame it]))
        with (Some (paymentFrame it))
        by (symmetry;
            change (b ++ [selectedFrame it; paymentFrame it])%list
              with (b ++ ([selectedFrame it] ++ [paymentFrame it]))%list;
            rewrite app_assoc; apply current_snoc).
      simpl. apply (onPayment_Inv it e w b); assumption.
Qed.

Lemma play_Inv (es : list Event) : Inv (play es).
Proof.
  unfold play. generalize Inv_initial. generalize initialWorld.
  induction es as [|e es IH]; intros w Hw; simpl; [exact Hw|].
  apply IH, handle_Inv, Hw.
Qed.

(** ** What holds in every state the user can reach *)

Lemma sameScreen_refl (n : ScreenName) : sameScreen n n = true.
Proof. destruct n; reflexivity. Qed.

Lemma sameTop_refl (s : list Route) : sameTop s s = true.
Proof. unfold sameTop. destruct (current s); [apply sameScreen_refl | reflexivity]. Qed.

Lemma menuItems_update (f : AppState -> AppState) (w : World) :
  menuItems (app (update f w)) = menuItems (f (app w)).
Proof. unfold update. destruct (sameTop _ _); reflexivity. Qed.

Lemma stack_update (f : AppState -> AppState) (w : World) :
  stack (app (update f w)) = stack (f (app w)).
Proof. unfold update. destruct (sameTop _ _); reflexivity. Qed.

(** X15: whatever the user does, [App] renders one of the five screens and
    never a text-only view: the frame on top is never Unknown, and a
    SelectedCourse or Payment frame on top carries an item, one that is in
    the menu.  The stack holds between one and four frames. *)
Theorem play_renders_a_screen (es : list Event) :
  (exists scr,
      App (app (play es)) = Some scr
      /\ match scr with
         | TextOnly _ => False
         | SelectedCourseView it | PaymentView it => In it (menuItems (app (play es)))
         | HomeView l | ChefView l | GuestFilterView l => l = menuItems (app (play es))
         end)
  /\ (1 <= List.length (stack (app (play es))) <= 4)%nat.
Proof.
  destruct (play_Inv es) as (Hs & _). unfold App.
  destruct (Shape_cases _ _ Hs) as [Hb|[(b & it & Hb & Hit & Es)|(b & it & Hb & Hit & Es)]].
  - simpl in Hb. destruct Hb as [Es|[Es|[Es|[]]]]; rewrite <- Es; simpl;
      (split; [eexists; split; [reflexivity|reflexivity] | lia]).
  - rewrite Es, current_snoc. split.
    + eexists. split; [reflexivity|]. exact Hit.
    + rewrite length_app. simpl in *. destruct Hb as [<-|[<-|[<-|[]]]]; simpl; lia.
  - rewrite Es.
    change (b ++ [selectedFrame it; paymentFrame it])%list
      with (b ++ ([selectedFrame it] ++ [paymentFrame it]))%list.
    rewrite app_assoc, current_snoc. split.
    + eexists. split; [reflexivity|]. exact Hit.
    + rewrite !length_app. simpl in *. destruct Hb as [<-|[<-|[<-|[]]]]; simpl; lia.
Qed.

(** X16: whatever the user does, every item of the menu has one of the four
    courses, an add-on that is one of the three real add-ons or empty, never
    "None", and a name that is not empty and has no white space at either
    end; the course and add-on cells of the chef form hold one of their
    options and the filter cell one of its tabs. *)
Theorem play_keeps_items_well_formed (es : list Event) :
  Forall (fun it =>
            In (course it) COURSES
            /\ In (addOn it) ["Extra Sauce"; "Salad"; "Fries"; ""]%list
            /\ addOn it <> "None"
            /\ name it <> ""
            /\ JS.trim (name it) = name it)
         (menuItems (app (play es)))
  /\ In (form_course (form (app (play es)))) COURSES
  /\ In (form_addOn (form (app (play es)))) ADDONS
  /\ In (courseFilter (play es)) ("All" :: COURSES)%list.
Proof.
  destruct (play_Inv es) as (_ & Hi & Hc & Hd & Hf & _).
  split; [|repeat split; assumption].
  eapply Forall_impl; [|exact Hi].
  intros it (H1 & H2 & H3 & H4). repeat split; auto.
  intros E. rewrite E in H2. simpl in H2.
  destruct H2 as [D|[D|[D|[D|[]]]]]; discriminate.
Qed.

(** X17: whatever the user does, the counts shown beside the four courses on
    the home screen add up to the total shown there. *)
Theorem play_counts_add_up (es : list Event) :
  sumCounts (computeAverages (menuItems (app (play es))))
  = List.length (menuItems (app (play es))).
Proof.
  destruct (play_Inv es) as (_ & Hi & _).
  rewrite sumCounts_fixed. f_equal. apply filter_all.
  eapply Forall_impl; [|exact Hi].
  intros it (H1 & _). apply isFixedCourse_In. exact H1.
Qed.

(** X18: whatever the user does, the stack is Home alone or under Chef or
    GuestFilter, with on top of that nothing, or the detail frame of an item
    of the menu, or that frame under the payment frame of the same item;
    so every frame with an item is a SelectedCourse or Payment frame whose
    item is still in the menu. *)
Theorem play_stack_shape (es : list Event) :
  Shape (menuItems (app (play es))) (stack (app (play es)))
  /\ Forall (frameFits (menuItems (app (play es)))) (stack (app (play es))).
Proof.
  destruct (play_Inv es) as (Hs & _). split; [exact Hs|].
  destruct (Shape_cases _ _ Hs) as [Hb|[(b & it & Hb & Hit & Es)|(b & it & Hb & Hit & Es)]].
  - simpl in Hb. destruct Hb as [Es|[Es|[Es|[]]]]; rewrite <- Es;
      repeat constructor; unfold frameFits; simpl; tauto.
  - rewrite Es. simpl in Hb. destruct Hb as [<-|[<-|[<-|[]]]];
      repeat constructor; unfold frameFits; simpl; tauto.
  - rewrite Es. simpl in Hb. destruct Hb as [<-|[<-|[<-|[]]]];
      repeat constructor; unfold frameFits; simpl; tauto.
Qed.

(** X19: one event changes the menu in two ways only: Add puts one item at
    its front, and a button of an alert removes the items of one id.  No
    other control writes the menu, on any screen and from any state. *)
Theorem handle_writes_menu_by_add_or_remove (w : World) (e : Event) :
  menuItems (app (handle w e)) = menuItems (app w)
  \/ (exists now it, e = PressAdd now
                     /\ menuItems (app (handle w e)) = (it :: menuItems (app w))%list)
  \/ (exists i id_, e = PressAlert i
                    /\ menuItems (app (handle w e)) = removeItem id_ (menuItems (app w))).
Proof.
  unfold handle. destruct (alert w) as [a|].
  - destruct e; auto. unfold pressAlert.
    destruct (buttons a) as [|b0 bs]; [destruct (i =? 0)%nat; auto|].
    destruct (nth_error (b0 :: bs) i) as [b|]; auto.
    rewrite menuItems_update. simpl.
    destruct (onPress b); simpl; eauto 6.
  - destruct (current (stack (app w))) as [c|]; auto.
    destruct (route_name c); auto.
    + destruct e; simpl; auto; unfold pressCard;
        try (destruct (nth_error _ _); auto); rewrite menuItems_update; auto.
    + destruct e; simpl; auto; unfold pressCard;
        try (destruct (nth_error _ _); auto); try (rewrite menuItems_update; auto).
      destruct (turnedDown (form (app w))) eqn:E.
      * destruct (onAdd_turnedDown now (app w) E) as (Hst & _).
        destruct (onAdd now (app w)); simpl in *. subst. auto.
      * rewrite (onAdd_not_turnedDown now (app w) E). simpl. eauto 6.
    + destruct e; simpl; auto; unfold pressCard;
        try (destruct (nth_error _ _); auto); rewrite menuItems_update; auto.
    + destruct (item (params c)); auto.
      destruct e; simpl; auto; rewrite menuItems_update; auto.
    + destruct (item (params c)); auto.
      destruct e; simpl; auto; rewrite menuItems_update; auto.
Qed.

(** ** What sequences of events do *)

Arguments onAdd : simpl never.

(** X20: on the chef screen, Remove on row [i] asks first; Cancel puts the
    application back exactly as it was, and Remove takes out every item with
    the id of that row and leaves the stack, the form and the other cells as
    they were. *)
Theorem remove_asks_first (items : list MenuItem) (f : ChefForm) (flt : string)
  (p : PaymentForm) (i : nat) (it : MenuItem)
  (Hi : nth_error items i = Some it) :
  let w := worldAt [initialRoute; chefFrame]%list items f flt p in
  menuItems (app (handle w (PressRemove i))) = items
  /\ handle (handle w (PressRemove i)) (PressAlert 0) = w
  /\ handle (handle w (PressRemove i)) (PressAlert 1)
     = worldAt [initialRoute; chefFrame]%list (removeItem (id it) items) f flt p.
Proof.
  cbv zeta. unfold handle, worldAt. simpl. rewrite Hi. simpl.
  repeat split.
Qed.

Lemma remove_asks_first_witness :
  handle (handle (worldAt [initialRoute; chefFrame]%list seedItems defaultForm "All" emptyPayment)
                 (PressRemove 0)) (PressAlert 1)
  = worldAt [initialRoute; chefFrame]%list (tl seedItems) defaultForm "All" emptyPayment.
Proof.
  refine (proj2 (proj2 (remove_asks_first seedItems defaultForm "All" emptyPayment 0
                          (hd brothItem seedItems) _))).
  reflexivity.
Defined.

(** X21: on the chef screen, Add and then the button of the alert: when the
    form is turned down the application is exactly as before; otherwise the
    home screen is shown with the new item first in the menu, and the chef
    form is back at its defaults. *)
Theorem add_then_ok (items : list MenuItem) (f : ChefForm) (flt : string)
  (p : PaymentForm) (now : N) :
  let w := worldAt [initialRoute; chefFrame]%list items f flt p in
  let w' := handle (handle w (PressAdd now)) (PressAlert 0) in
  (turnedDown f = true /\ w' = w)
  \/ (turnedDown f = false
      /\ exists it,
           w' = worldAt [initialRoute]%list (it :: items)%list defaultForm "All" emptyPayment
           /\ App (app w') = Some (HomeView (it :: items)%list)
           /\ id it = JS.digitsOfN now).
Proof.
  cbv zeta.
  set (st := {| stack := [initialRoute; chefFrame]%list; menuItems := items; form := f |}).
  assert (Hadd : handle (worldAt [initialRoute; chefFrame]%list items f flt p) (PressAdd now)
                 = showAlert (snd (onAdd now st))
                     {| app := fst (onAdd now st); courseFilter := flt; payment := p;
                        alert := None |}).
  { unfold handle, worldAt. simpl. fold st. destruct (onAdd now st); reflexivity. }
  rewrite Hadd. clear Hadd.
  destruct (turnedDown f) eqn:E.
  - left. split; [reflexivity|].
    destruct (onAdd_turnedDown now st E) as (H1 & _ & H3).
    unfold handle, pressAlert. simpl. rewrite H1, H3. reflexivity.
  - right. split; [reflexivity|].
    rewrite (onAdd_not_turnedDown now st E).
    simpl. eexists. repeat split.
Qed.

(** X22: from the home screen, pressing card [i], Confirm Meal, typing the
    two payment fields, Confirm payment and OK: with both fields filled the
    alert names the item and its price and OK leads back to the home screen,
    the menu as it was; with a field blank the payment screen stays, with
    what was typed. *)
Theorem order_and_pay (items : list MenuItem) (f : ChefForm) (flt bank account : string)
  (p : PaymentForm) (i : nat) (it : MenuItem)
  (Hi : nth_error (displayed flt (Some items)) i = Some it) :
  let w := worldAt [initialRoute]%list items f flt p in
  let paying :=
    fold_left handle
      [PressCard i; PressConfirmMeal; TypeBank bank; TypeAccount account;
       PressConfirmPayment]%list w in
  stack (app paying) = [initialRoute; selectedFrame it; paymentFrame it]%list
  /\ alert paying
     = Some (onConfirmPayment it {| bankName := bank; accountNumber := account |})
  /\ ((JS.trim bank <> "" /\ JS.trim account <> ""
       /\ message (onConfirmPayment it {| bankName := bank; accountNumber := account |})
          = "Order for " ++ name it ++ " placed. Total: " ++ priceText it
       /\ handle paying (PressAlert 0)
          = worldAt [initialRoute]%list items defaultForm "All" emptyPayment)
      \/ ((JS.trim bank = "" \/ JS.trim account = "")
          /\ handle paying (PressAlert 0)
             = worldAt [initialRoute; selectedFrame it; paymentFrame it]%list items
                 defaultForm "All" {| bankName := bank; accountNumber := account |})).
Proof.
  cbv zeta.
  assert (Hcard : handle (worldAt [initialRoute]%list items f flt p) (PressCard i)
                  = worldAt [initialRoute; selectedFrame it]%list items defaultForm "All"
                      emptyPayment).
  { unfold handle, worldAt. cbn -[displayed]. unfold pressCard. rewrite Hi. reflexivity. }
  cbn [fold_left]. rewrite Hcard. clear Hcard.
  unfold handle, worldAt. simpl.
  split; [reflexivity|]. split; [reflexivity|].
  unfold onConfirmPayment, pressAlert, priceText. simpl.
  destruct (JS.truthy (JS.trim bank)) eqn:Eb;
    destruct (JS.truthy (JS.trim account)) eqn:Ea; simpl;
    try apply truthy_nonempty in Eb; try apply truthy_empty in Eb;
    try apply truthy_nonempty in Ea; try apply truthy_empty in Ea.
  - left. repeat split; assumption.
  - right. split; [right; exact Ea | reflexivity].
  - right. split; [left; exact Eb | reflexivity].
  - right. split; [left; exact Eb | reflexivity].
Qed.

Lemma order_and_pay_witness :
  stack (app (fold_left handle
                [PressCard 1; PressConfirmMeal; TypeBank "FNB"; TypeAccount "123";
                 PressConfirmPayment]%list
                (worldAt [initialRoute]%list seedItems defaultForm "All" emptyPayment)))
  = [initialRoute; selectedFrame (hd brothItem (tl seedItems));
     paymentFrame (hd brothItem (tl seedItems))]%list.
Proof.
  refine (proj1 (order_and_pay seedItems defaultForm "All" "FNB" "123" emptyPayment 1
                   (hd brothItem (tl seedItems)) _)).
  reflexivity.
Defined.

(** ** The round trip through the two-decimal text *)

Lemma string_length_append (a b : string) :
  String.length (a ++ b) = (String.length a + String.length b)%nat.
Proof. induction a as [|c a IH]; simpl; [reflexivity | rewrite IH; reflexivity]. Qed.

Lemma allDigits_append (a b : string) :
  allDigits (a ++ b) = allDigits a && allDigits b.
Proof.
  induction a as [|c a IH]; simpl; [reflexivity|].
  rewrite IH. apply andb_assoc.
Qed.

Lemma digitsVal_append (a b : string) (acc : Z) :
  digitsVal acc (a ++ b) = digitsVal (digitsVal acc a) b.
Proof. revert acc. induction a as [|c a IH]; intros acc; simpl; [reflexivity | apply IH]. Qed.

Lemma allDigits_zeros (k : nat) : allDigits (JS.zeros k) = true.
Proof. induction k; simpl; [reflexivity | exact IHk]. Qed.

Lemma digitsVal_zeros (k : nat) : digitsVal 0 (JS.zeros k) = 0%Z.
Proof. induction k; simpl; [reflexivity | exact IHk]. Qed.

Lemma length_zeros (k : nat) : String.length (JS.zeros k) = k.
Proof. induction k; simpl; [reflexivity | rewrite IHk; reflexivity]. Qed.

Lemma allDigits_uint (d : Decimal.uint) : allDigits (NilEmpty.string_of_uint d) = true.
Proof. induction d; simpl; auto. Qed.

Lemma digitsVal_uint_acc (d : Decimal.uint) (acc : positive) :
  digitsVal (Zpos acc) (NilEmpty.string_of_uint d) = Zpos (Pos.of_uint_acc d acc).
Proof.
  revert acc. induction d; intros acc; [reflexivity|..];
    cbn [NilEmpty.string_of_uint digitsVal Pos.of_uint_acc]; rewrite <- IHd; f_equal;
    match goal with
    | |- context [JS.digitVal ?c] =>
        let v := eval vm_compute in (JS.digitVal c) in change (JS.digitVal c) with v
    end; lia.
Qed.

Lemma digitsVal_uint (d : Decimal.uint) :
  digitsVal 0 (NilEmpty.string_of_uint d) = Z.of_N (Pos.of_uint d).
Proof.
  induction d; [reflexivity | exact IHd |..];
    cbn [NilEmpty.string_of_uint digitsVal Pos.of_uint];
    match goal with
    | |- context [JS.digitVal ?c] =>
        let v := eval vm_compute in (JS.digitVal c) in change (JS.digitVal c) with v
    end; apply digitsVal_uint_acc.
Qed.

Lemma digitsOfN_NilEmpty (n : N) :
  JS.digitsOfN n = NilEmpty.string_of_uint (N.to_uint n).
Proof.
  unfold JS.digitsOfN, NilZero.string_of_uint.
  pose proof (to_uint_nonnil n) as H. destruct (N.to_uint n); [contradiction|..]; reflexivity.
Qed.

Lemma digitsOfZ_spec (n : Z) :
  (0 <= n)%Z ->
  allDigits (JS.digitsOfZ n) = true
  /\ digitsVal 0 (JS.digitsOfZ n) = n
  /\ (1 <= String.length (JS.digitsOfZ n))%nat.
Proof.
  intros Hn. unfold JS.digitsOfZ. rewrite digitsOfN_NilEmpty.
  split; [apply allDigits_uint|]. split.
  - rewrite digitsVal_uint. change (Pos.of_uint (N.to_uint (Z.to_N n)))
      with (N.of_uint (N.to_uint (Z.to_N n))).
    rewrite DecimalN.Unsigned.of_to. apply Z2N.id. exact Hn.
  - pose proof (to_uint_nonnil (Z.to_N n)) as H.
    destruct (N.to_uint (Z.to_N n)); [contradiction|..]; simpl; lia.
Qed.

Lemma substring_all (s : string) : substring 0 (String.length s) s = s.
Proof. induction s as [|c s IH]; simpl; [reflexivity | rewrite IH; reflexivity]. Qed.

Lemma substring_split (a b : nat) (s : string) :
  (a + b = String.length s)%nat -> substring 0 a s ++ substring a b s = s.
Proof.
  revert s. induction a as [|a IH]; intros s H.
  - simpl in H. subst b. rewrite substring_all. destruct s; reflexivity.
  - destruct s as [|c s]; [discriminate|]. simpl in *.
    rewrite IH by lia. reflexivity.
Qed.

Lemma length_substring_prefix (a : nat) (s : string) :
  (a <= String.length s)%nat -> String.length (substring 0 a s) = a.
Proof.
  revert s. induction a as [|a IH]; intros s H.
  - destruct s; reflexivity.
  - destruct s as [|c s]; simpl in *; [lia|]. rewrite IH by lia. reflexivity.
Qed.

Lemma decimalDigits_digits (ds rest : string) (acc : Z) (cnt : nat) :
  allDigits ds = true -> stops rest = true ->
  JS.decimalDigits acc cnt (ds ++ rest)
  = (digitsVal acc ds, (cnt + String.length ds)%nat, rest).
Proof.
  intros Hd Hr. revert acc cnt. induction ds as [|c ds IH]; intros acc cnt.
  - simpl. rewrite Nat.add_0_r. destruct rest as [|c r]; [reflexivity|].
    simpl in *. apply negb_true_iff in Hr. rewrite Hr. reflexivity.
  - simpl in *. apply andb_true_iff in Hd. destruct Hd as [Hc Hd].
    rewrite Hc, (IH Hd). f_equal. f_equal. lia.
Qed.

Lemma digit_is_plain (c : ascii) :
  JS.isDigit c = true ->
  JS.isWhiteSpace c = false
  /\ (forall s, prefix "Infinity" (String c s) = false)
  /\ forall s, JS.strDecimalLiteral (String c s)
               = option_map (pair false) (JS.unsignedDecimalLiteral (String c s)).
Proof.
  destruct c as [[] [] [] [] [] [] [] []]; intros H; try discriminate H;
    (split; [reflexivity | split; reflexivity]).
Qed.

Lemma unsignedDecimalLiteral_fixed (A B : string) :
  allDigits A = true -> (1 <= String.length A)%nat -> allDigits B = true ->
  JS.unsignedDecimalLiteral (A ++ "." ++ B)
  = Some (JS.LitDecimal (digitsVal 0 (A ++ B)) (- Z.of_nat (String.length B))).
Proof.
  intros HA HlA HB. unfold JS.unsignedDecimalLiteral.
  destruct A as [|c A']; [simpl in HlA; lia|].
  assert (Hc : JS.isDigit c = true) by (simpl in HA; apply andb_true_iff in HA; tauto).
  destruct (digit_is_plain c Hc) as (_ & HI & _).
  change (String c A' ++ "." ++ B) with (String c (A' ++ "." ++ B)) at 1.
  rewrite HI.
  rewrite (decimalDigits_digits (String c A') ("." ++ B) 0 0 HA eq_refl).
  change ("." ++ B) with (String "." B).
  cbv beta iota.
  replace B with (B ++ "") at 1 by (clear; induction B; simpl; congruence).
  rewrite (decimalDigits_digits B "" _ 0 HB eq_refl).
  replace ((0 + String.length (String c A') =? 0)%nat) with false
    by (symmetry; apply Nat.eqb_neq; simpl; lia).
  cbn [andb JS.exponentPart]. rewrite digitsVal_append. simpl Nat.add.
  f_equal.
Qed.

Lemma fixedDigits_shape (n : Z) :
  (0 <= n)%Z ->
  exists A B,
    JS.fixedDigits 2 n = A ++ "." ++ B
    /\ allDigits A = true /\ allDigits B = true
    /\ (1 <= String.length A)%nat /\ String.length B = 2%nat
    /\ digitsVal 0 (A ++ B) = n.
Proof.
  intros Hn. destruct (digitsOfZ_spec n Hn) as (Hd & Hv & Hl).
  unfold JS.fixedDigits. cbn [Nat.eqb].
  set (m := JS.digitsOfZ n) in *.
  set (m' := if (String.length m <=? 2)%nat
             then JS.zeros (2 + 1 - String.length m) ++ m else m).
  assert (Hm' : allDigits m' = true /\ digitsVal 0 m' = n /\ (3 <= String.length m')%nat).
  { unfold m'. destruct (Nat.leb_spec (String.length m) 2) as [H|H].
    - rewrite allDigits_append, allDigits_zeros, digitsVal_append, digitsVal_zeros,
        string_length_append, length_zeros.
      repeat split; auto; lia.
    - repeat split; auto; lia. }
  destruct Hm' as (Hd' & Hv' & Hl').
  cbv zeta.
  set (k := String.length m') in *.
  assert (Hsplit : substring 0 (k - 2) m' ++ substring (k - 2) 2 m' = m')
    by (apply substring_split; lia).
  exists (substring 0 (k - 2) m'), (substring (k - 2) 2 m').
  assert (HlA : String.length (substring 0 (k - 2) m') = (k - 2)%nat)
    by (apply length_substring_prefix; lia).
  pose proof (f_equal String.length Hsplit) as Hlen.
  rewrite string_length_append, HlA in Hlen. fold k in Hlen.
  pose proof Hd' as Hd''. rewrite <- Hsplit, allDigits_append in Hd''.
  apply andb_true_iff in Hd''. destruct Hd'' as [HdA HdB].
  split; [reflexivity|]. repeat split; auto; try lia.
  rewrite Hsplit. exact Hv'.
Qed.

Lemma parseFloat_fixedDigits (neg : bool) (n : Z) :
  (0 <= n)%Z ->
  JS.parseFloat ((if neg then "-" else "") ++ JS.fixedDigits 2 n) = JS.ofRatio neg n 100.
Proof.
  intros Hn.
  destruct (fixedDigits_shape n Hn) as (A & B & -> & HA & HB & HlA & HlB & Hv).
  pose proof (unsignedDecimalLiteral_fixed A B HA HlA HB) as Hu.
  rewrite Hv, HlB in Hu.
  destruct A as [|c A']; [simpl in HlA; lia|].
  assert (Hc : JS.isDigit c = true) by (simpl in HA; apply andb_true_iff in HA; tauto).
  destruct (digit_is_plain c Hc) as (Hw & _ & Hs).
  unfold JS.parseFloat. destruct neg.
  - change ("-" ++ String c A' ++ "." ++ B) with (String "-" (String c A' ++ "." ++ B)).
    rewrite trimStart_fixed by reflexivity.
    cbn [JS.strDecimalLiteral]. rewrite Hu. reflexivity.
  - change ("" ++ String c A' ++ "." ++ B) with (String c (A' ++ "." ++ B)).
    rewrite trimStart_fixed by exact Hw.
    rewrite Hs.
    change (String c (A' ++ "." ++ B)) with (String c A' ++ "." ++ B).
    rewrite Hu. reflexivity.
Qed.

Lemma hundredths_nonneg (m : positive) (e : Z) : (0 <= hundredths m e)%Z.
Proof.
  unfold hundredths, JS.numOf, JS.denOf.
  assert (0 < 2 ^ Z.max (- e) 0)%Z by (apply Z.pow_pos_nonneg; lia).
  assert (0 < 2 ^ Z.max e 0)%Z by (apply Z.pow_pos_nonneg; lia).
  apply Z.div_pos; nia.
Qed.

(** X23: for a finite Number [x] other than zero with [|x| < 10 ^ 21],
    [parseFloat(x.toFixed(2))] is the Number nearest to [n / 100], with the
    sign of [x], where [n] is [100 |x|] rounded to an integer, halves
    upwards: reading the two-decimal text back loses nothing of it.  This is
    the rounding of both averages and of the price of a new item. *)
Theorem round2_nearest_hundredth (x : JS.number) (s : bool) (m : positive) (e : Z)
  (Hx : Prim2SF x = S754_finite s m e)
  (Hlt : (JS.numOf m e < 10 ^ 21 * JS.denOf e)%Z) :
  JS.toFixed 2 x = (if s then "-" else "") ++ JS.fixedDigits 2 (hundredths m e)
  /\ round2 x = JS.ofRatio s (hundredths m e) 100.
Proof.
  assert (E : JS.toFixed 2 x
              = (if s then "-" else "") ++ JS.fixedDigits 2 (hundredths m e)).
  { unfold JS.toFixed. rewrite Hx. cbv zeta.
    replace (10 ^ 21 * JS.denOf e <=? JS.numOf m e)%Z with false
      by (symmetry; apply Z.leb_gt; exact Hlt).
    reflexivity. }
  split; [exact E|].
  unfold round2. rewrite E. apply parseFloat_fixedDigits, hundredths_nonneg.
Qed.

Lemma round2_nearest_hundredth_witness :
  JS.toFixed 2 0.125%float = "0.13" /\ round2 0.125%float = JS.ofRatio false 13 100.
Proof.
  refine (round2_nearest_hundredth 0.125%float false 4503599627370496 (-55) _ _).
  - vm_compute. reflexivity.
  - vm_compute. reflexivity.
Defined.

(** X24: [parseFloat(x.toFixed(2))] keeps [NaN] and both infinities, and
    gives [+0] for both zeros. *)
Theorem round2_special_values (x : JS.number) :
  match Prim2SF x with
  | S754_nan => round2 x = nan
  | S754_infinity sgn => round2 x = if sgn then neg_infinity else infinity
  | S754_zero _ => round2 x = 0%float
  | S754_finite _ _ _ => True
  end.
Proof.
  unfold round2, JS.toFixed.
  destruct (Prim2SF x) as [sgn|sgn| |sgn m e]; try exact I;
    try destruct sgn; vm_compute; reflexivity.
Qed.

(** ** The averages against the arithmetic mean *)












(** C4, as stated, fails: the submission of the form with name "Pizza",
    price "99.999", course "Main" and add-on "None" is accepted, and after it
    the stack still has the Chef frame on top of the root; it is not reset
    to the root. *)
Lemma onAdd_leaves_stack :
  title (snd (onAdd 1730000000000 (chefState "Pizza" "Main" "None" "99.999"))) = "Success"
  /\ stack (fst (onAdd 1730000000000 (chefState "Pizza" "Main" "None" "99.999")))
     = [initialRoute; chefFrame]%list
  /\ stack (fst (onAdd 1730000000000 (chefState "Pizza" "Main" "None" "99.999")))
     <> [initialRoute]%list.
Proof. vm_compute. repeat split. discriminate. Qed.
